(** * The manifest, tag and catalog handlers of the OCI registry front end

    A shallow embedding of [registry/manifest.go]: the Go library functions
    the handlers call, the manifest store with Go's map aliasing, the three
    handlers, and the properties of the handlers. *)

From Stdlib Require Import ZArith Lia String Ascii List DecimalString.
From Stdlib.Strings Require Import Byte.
From stdpp Require Import base option list gmap strings sorting.

Local Open Scope Z_scope.

(** ** Go slices of strings

    A slice is modelled by the list of its elements, with capacity equal to
    length: every slice expression of [manifest.go] has its upper bound at
    most [len], so the bounds checks below are the ones Go performs. The
    integer indices are Go's [int], here [Z]. *)

Definition len {A} (l : list A) : Z := Z.of_nat (length l).

(** [s[i]]: [None] is Go's "index out of range" panic. *)
Definition index {A} (s : list A) (i : Z) : option A :=
  if (i <? 0) || (len s <=? i) then None else s !! Z.to_nat i.

(** [s[lo:hi]]: [None] is Go's "slice bounds out of range" panic. *)
Definition slice {A} (s : list A) (lo hi : Z) : option (list A) :=
  if (lo <? 0) || (hi <? lo) || (len s <? hi) then None
  else Some (take (Z.to_nat (hi - lo)) (drop (Z.to_nat lo) s)).

(** [s[lo:]] is [s[lo:len(s)]] and [s[:hi]] is [s[0:hi]]. *)
Definition slice_from {A} (s : list A) (lo : Z) : option (list A) :=
  slice s lo (len s).
Definition slice_to {A} (s : list A) (hi : Z) : option (list A) :=
  slice s 0 hi.

(** ** Package [strings] *)

Module strings.

(** [strings.Split(s, sep)] for a non-empty separator: the substrings of
    [s] between the non-overlapping occurrences of [sep], found left to
    right. [skip] counts the bytes of a matched separator still to pass,
    [cur] holds the bytes of the current piece in reverse. *)
Fixpoint Split_go (sep : string) (skip : nat) (cur : string) (s : string)
  : list string :=
  match s with
  | EmptyString => [String.rev cur]
  | String a s' =>
      match skip with
      | S k => Split_go sep k cur s'
      | O =>
          if String.prefix sep s
          then String.rev cur
                 :: Split_go sep (Nat.pred (String.length sep)) EmptyString s'
          else Split_go sep O (String a cur) s'
      end
  end.

Definition Split (s sep : string) : list string :=
  Split_go sep O EmptyString s.

(** [strings.Join(elems, sep)]. *)
Definition Join (elems : list string) (sep : string) : string :=
  String.concat sep elems.

(** [strings.Contains(s, substr)]: [substr] occurs somewhere in [s]. *)
Fixpoint Contains (s substr : string) : bool :=
  if String.prefix substr s then true
  else match s with
       | EmptyString => false
       | String _ s' => Contains s' substr
       end.

End strings.

(** ** Package [strconv] *)

Module strconv.

Inductive ErrKind := ErrSyntax | ErrRange.

(** [*strconv.NumError]. *)
Record NumError := { Func : string; Num : string; Err : ErrKind }.

Definition maxUint64 : Z := 2 ^ 64 - 1.
Definition maxInt64 : Z := 2 ^ 63 - 1.
Definition minInt64 : Z := - 2 ^ 63.

Definition digit (c : ascii) : option Z :=
  let n := Z.of_N (N_of_ascii c) in
  if (48 <=? n) && (n <=? 57) then Some (n - 48) else None.

(** The digit loop of [ParseUint(s, 10, 64)]: a byte that is no decimal
    digit is a syntax error with value 0; the first digit that takes the
    value past [maxUint64] is a range error with value [maxUint64], and
    the rest of the input is not looked at. *)
Fixpoint ParseUint_loop (s : string) (n : Z) : Z * option ErrKind :=
  match s with
  | EmptyString => (n, None)
  | String c s' =>
      match digit c with
      | None => (0, Some ErrSyntax)
      | Some d =>
          if maxUint64 <? n * 10 + d then (maxUint64, Some ErrRange)
          else ParseUint_loop s' (n * 10 + d)
      end
  end.

Definition ParseUint (s : string) : Z * option ErrKind :=
  match s with
  | EmptyString => (0, Some ErrSyntax)
  | _ => ParseUint_loop s 0
  end.

(** [ParseInt(s, 10, 0)] on a 64-bit platform. *)
Definition ParseInt (s : string) : Z * option ErrKind :=
  match s with
  | EmptyString => (0, Some ErrSyntax)
  | String c rest =>
      let neg := Ascii.eqb c "-" in
      let body := if Ascii.eqb c "+" || Ascii.eqb c "-" then rest else s in
      match ParseUint body with
      | (_, Some ErrSyntax) => (0, Some ErrSyntax)
      | (un, e) =>
          if negb neg && (2 ^ 63 <=? un) then (maxInt64, Some ErrRange)
          else if neg && (2 ^ 63 <? un) then (minInt64, Some ErrRange)
          else match e with
               | Some k => (if neg then minInt64 else maxInt64, Some k)
               | None => (if neg then - un else un, None)
               end
      end
  end.

(** [strconv.Atoi(s)]: the value and the error ([None] is Go's [nil]).
    Atoi's fast path for short inputs computes what [ParseInt] computes. *)
Definition Atoi (s : string) : Z * option NumError :=
  match ParseInt s with
  | (i, None) => (i, None)
  | (i, Some k) => (i, Some {| Func := "Atoi"; Num := s; Err := k |})
  end.

Definition ErrKind_Error (k : ErrKind) : string :=
  match k with
  | ErrSyntax => "invalid syntax"
  | ErrRange => "value out of range"
  end.

(** The [Error] method of [NumError], over [strconv.Quote]. *)
Definition Error (Quote : string → string) (e : NumError) : string :=
  "strconv." +:+ Func e +:+ ": parsing " +:+ Quote (Num e) +:+ ": "
    +:+ ErrKind_Error (Err e).

End strconv.

(** ** Package [fmt] *)

Module fmt.

(** [fmt.Sprint(i)] for an [int]: its decimal representation. *)
Definition Sprint (i : Z) : string := NilZero.string_of_int (Z.to_int i).

End fmt.

(** ** Package [crypto/sha256]

    SHA-256 over 32-bit words held in [Z], each addition reduced with the
    mask [0xffffffff]. *)

Module sha256.

Definition mask32 : Z := 0xffffffff.
Definition add32 (x y : Z) : Z := Z.land (x + y) mask32.
Definition not32 (x : Z) : Z := Z.lxor x mask32.
(** [bits.RotateLeft32(x, -n)]. *)
Definition rotr (x n : Z) : Z :=
  Z.lor (Z.shiftr x n) (Z.land (Z.shiftl x (32 - n)) mask32).

(** The round constants and the initial hash value are, as FIPS 180-4
    defines them, the first 32 bits of the fractional parts of the cube
    roots of the first 64 primes and of the square roots of the first 8;
    Go's [_K] and [init0] to [init7] are these numbers written out. *)
Definition is_prime (p : Z) : bool :=
  forallb (λ d, negb (p mod d =? 0)) (seqZ 2 (p - 2)).

Definition primes : list Z := filter (λ p, is_prime p = true) (seqZ 2 310).

(** The integer cube root of a number below [2 ^ 105], bit by bit. *)
Definition cbrt (x : Z) : Z :=
  fold_left (λ r b, if (r + 2 ^ b) ^ 3 <=? x then r + 2 ^ b else r)
            (reverse (seqZ 0 35)) 0.

Definition _K : list Z :=
  Eval vm_compute in (λ p, Z.land (cbrt (p * 2 ^ 96)) mask32) <$> primes.

Definition init : list Z :=
  Eval vm_compute in
    (λ p, Z.land (Z.sqrt (p * 2 ^ 64)) mask32) <$> take 8 primes.

(** Big-endian words of a byte sequence, four bytes a word. *)
Fixpoint words (p : list Z) : list Z :=
  match p with
  | b0 :: b1 :: b2 :: b3 :: p' =>
      Z.lor (Z.lor (Z.shiftl b0 24) (Z.shiftl b1 16))
            (Z.lor (Z.shiftl b2 8) b3) :: words p'
  | _ => []
  end.

(** The message schedule: [w] holds [w[0..i-1]], [k] more are added. *)
Fixpoint schedule (k : nat) (w : list Z) : list Z :=
  match k with
  | O => w
  | S k' =>
      let i := length w in
      let v1 := nth (i - 2) w 0 in
      let t1 := Z.lxor (Z.lxor (rotr v1 17) (rotr v1 19)) (Z.shiftr v1 10) in
      let v2 := nth (i - 15) w 0 in
      let t2 := Z.lxor (Z.lxor (rotr v2 7) (rotr v2 18)) (Z.shiftr v2 3) in
      schedule k'
        (w ++ [add32 (add32 (add32 t1 (nth (i - 7) w 0)) t2)
                     (nth (i - 16) w 0)])
  end.

Record regs := {
  ra : Z; rb : Z; rc : Z; rd : Z; re : Z; rf : Z; rg : Z; rh : Z;
}.

Definition round (r : regs) (kw : Z * Z) : regs :=
  let '(Build_regs a b c d e f g h) := r in
  let t1 :=
    add32 (add32 (add32 (add32 h
      (Z.lxor (Z.lxor (rotr e 6) (rotr e 11)) (rotr e 25)))
      (Z.lxor (Z.land e f) (Z.land (not32 e) g))) (fst kw)) (snd kw) in
  let t2 :=
    add32 (Z.lxor (Z.lxor (rotr a 2) (rotr a 13)) (rotr a 22))
          (Z.lxor (Z.lxor (Z.land a b) (Z.land a c)) (Z.land b c)) in
  {| ra := add32 t1 t2; rb := a; rc := b; rd := c;
     re := add32 d t1; rf := e; rg := f; rh := g |}.

Definition of_list (h : list Z) : regs :=
  {| ra := nth 0 h 0; rb := nth 1 h 0; rc := nth 2 h 0; rd := nth 3 h 0;
     re := nth 4 h 0; rf := nth 5 h 0; rg := nth 6 h 0; rh := nth 7 h 0 |}.
Definition to_list (r : regs) : list Z :=
  [ra r; rb r; rc r; rd r; re r; rf r; rg r; rh r].

(** One 64-byte chunk. *)
Definition block (h : list Z) (p : list Z) : list Z :=
  let w := schedule 48 (words p) in
  let r := fold_left round (combine _K w) (of_list h) in
  zip_with add32 h (to_list r).

Fixpoint blocks (n : nat) (h : list Z) (p : list Z) : list Z :=
  match n with
  | O => h
  | S n' => blocks n' (block h (take 64 p)) (drop 64 p)
  end.

(** Big-endian bytes of a word of [n] bytes. *)
Fixpoint be_bytes (n : nat) (x : Z) : list Z :=
  match n with
  | O => []
  | S n' => Z.land (Z.shiftr x (8 * Z.of_nat n')) 0xff :: be_bytes n' x
  end.

(** The padded message: a [0x80] byte, zeros up to 56 modulo 64, then the
    length in bits as eight big-endian bytes. *)
Definition pad (msg : list Z) : list Z :=
  let l := len msg in
  msg ++ [0x80] ++ replicate (Z.to_nat ((55 - l) mod 64)) 0
      ++ be_bytes 8 (8 * l).

Definition byte_of_Z (z : Z) : byte :=
  default x00 (Byte.of_N (Z.to_N z)).
Definition Z_of_byte (b : byte) : Z := Z.of_N (Byte.to_N b).

(** [sha256.Sum256(data)], the 32 bytes of the checksum. *)
Definition Sum256 (data : list byte) : list byte :=
  let p := pad (Z_of_byte <$> data) in
  let h := blocks (length p / 64) init p in
  byte_of_Z <$> concat (be_bytes 4 <$> h).

End sha256.

(** ** Package [encoding/hex] *)

Module hex.

Definition hextable : string := "0123456789abcdef".

Definition hexdigit (n : Z) : ascii :=
  default "0"%char (String.get (Z.to_nat n) hextable).

(** [hex.EncodeToString(src)]: two lower-case digits a byte. *)
Fixpoint EncodeToString (src : list byte) : string :=
  match src with
  | [] => EmptyString
  | v :: src' =>
      let z := sha256.Z_of_byte v in
      String (hexdigit (Z.shiftr z 4))
        (String (hexdigit (Z.land z 0x0f)) (EncodeToString src'))
  end.

End hex.

(** ** Package [sort] *)

Module sort.

(** [sort.Strings(x)]: [x] in increasing order of Go's string comparison,
    which compares byte by byte. Equal strings are identical, so every
    sorting algorithm returns this list. *)
Definition Strings (x : list string) : list string :=
  merge_sort String.le x.

End sort.

(** ** Package [net/url] *)

Module url.

(** [url.Values], the parsed query of a request. *)
Abbreviation Values := (gmap string (list string)).

(** [Values.Get(key)]: the first value of [key], or the empty string. *)
Definition Get (v : Values) (key : string) : string :=
  match v !! key with
  | Some (x :: _) => x
  | _ => EmptyString
  end.

End url.

(** ** Package [net/http] *)

Module http.

Definition MethodGet : string := "GET".
Definition MethodHead : string := "HEAD".
Definition StatusOK : Z := 200.
Definition StatusBadRequest : Z := 400.
Definition StatusNotFound : Z := 404.

(** What a handler reads of [*http.Request]: [req.Method],
    [req.URL.Path] and [req.URL.Query()]. *)
Record Request := {
  Method : string;
  Path : string;
  Query : url.Values;
}.

(** An [http.ResponseWriter] that records what is written to it: the
    header map, the status of the first [WriteHeader], the body bytes. *)
Record ResponseWriter := {
  Header : gmap string string;
  Code : option Z;
  Body : list byte;
}.

Definition NewRecorder : ResponseWriter :=
  {| Header := ∅; Code := None; Body := [] |}.

(** [w.Header().Set(key, value)]; the keys the handlers set are in
    canonical form already. *)
Definition Header_Set (key value : string) (w : ResponseWriter)
  : ResponseWriter :=
  {| Header := <[key := value]> (Header w); Code := Code w; Body := Body w |}.

(** [w.WriteHeader(code)]: only the first call counts. *)
Definition WriteHeader (code : Z) (w : ResponseWriter) : ResponseWriter :=
  match Code w with
  | Some _ => w
  | None => {| Header := Header w; Code := Some code; Body := Body w |}
  end.

(** [w.Write(p)], which [io.Copy(w, bytes.NewReader(p))] comes to: an
    implicit [WriteHeader(200)] when no status was written, then the
    bytes. *)
Definition Write (p : list byte) (w : ResponseWriter) : ResponseWriter :=
  let w := WriteHeader StatusOK w in
  {| Header := Header w; Code := Code w; Body := Body w ++ p |}.

End http.

(** ** Data model *)

Record Catalog := { Repos : list string }.

(** A slice field holds the elements of the slice. Whether an empty slice is
    nil, which [json.Marshal] shows as [null] against [[]], is not kept; no
    property below depends on it, and [json.Marshal] is a parameter. *)
Record listTags := { Name : string; Tags : list string }.

(** [CreatedAt] is a [time.Time], kept as an instant in [Z]. *)
Record Manifest := {
  ContentType : string;
  Blob : list byte;
  Refs : list string;
  CreatedAt : Z;
}.

(** Modelled from the spec: the declaration of [regError] is outside
    [manifest.go]; the spec gives it the three fields the handlers fill,
    [{status:int, code:string, message:string}]. *)
Record regError := { Status : Z; Code : string; Message : string }.

(** A Go map is a reference to a map object: [manifests] binds a repository
    to the address of its reference table ([None] is the nil map), and
    [heap] holds the tables. Two variables that hold the same address see
    each other's insertions; a variable that holds the nil map, or the
    address of a table that was replaced, does not see the new table.
    [registry] is the state behind the [registry] pointer, owned by the
    Chart Preparer. The mutex is held for the whole of each handler, so a
    handler is a sequential function of this state. *)
Definition loc := positive.
Abbreviation mapref := (option loc).
Abbreviation table := (gmap string Manifest).

Record Manifests (W : Type) := {
  manifests : gmap string mapref;
  heap : gmap loc table;
  registry : W;
}.
Arguments manifests {W} _.
Arguments heap {W} _.
Arguments registry {W} _.

(** The table a map value refers to; the nil map reads as the empty map. *)
Definition deref {W} (m : Manifests W) (c : mapref) : table :=
  match c with
  | Some l => default ∅ (heap m !! l)
  | None => ∅
  end.

(** [m.manifests[repo]] in its two-value form. *)
Definition manifests_lookup {W} (m : Manifests W) (repo : string)
  : mapref * bool :=
  match manifests m !! repo with
  | Some c => (c, true)
  | None => (None, false)
  end.

(** [m.manifests[repo][target]]: the binding is read again, then its table. *)
Definition manifest_lookup {W} (m : Manifests W) (repo target : string)
  : option Manifest :=
  deref m (fst (manifests_lookup m repo)) !! target.

(** ** Handler computations

    A handler threads the store and the response writer, and ends in one of
    three ways: it falls through to the next statement with a value, it
    executes a [return], or it panics (an index or a slice bound out of
    range), which leaves the request without a response. *)

Inductive res (A : Type) :=
  | Val (a : A)
  | Ret (e : option regError)
  | Panic (msg : string).
Arguments Val {A} _.
Arguments Ret {A} _.
Arguments Panic {A} _.

Definition state (W : Type) : Type := Manifests W * http.ResponseWriter.

Definition M (W A : Type) : Type := state W → res A * state W.

Definition ret {W A} (a : A) : M W A := λ s, (Val a, s).

Definition bind {W A B} (c : M W A) (k : A → M W B) : M W B :=
  λ s, match c s with
       | (Val a, s') => k a s'
       | (Ret e, s') => (Ret e, s')
       | (Panic msg, s') => (Panic msg, s')
       end.

Notation "x <- c ;; k" := (bind c (λ x, k))
  (at level 100, c at next level, right associativity).
Notation "c ;;; k" := (bind c (λ _, k))
  (at level 100, right associativity).

(** [return e]. *)
Definition Return {W A} (e : option regError) : M W A := λ s, (Ret e, s).

(** An indexing or slicing step: [None] panics. *)
Definition check {W A} (msg : string) (o : option A) : M W A :=
  λ s, match o with
       | Some a => (Val a, s)
       | None => (Panic msg, s)
       end.

Definition index_panic : string := "index out of range".
Definition slice_panic : string := "slice bounds out of range".

(** Read the store. *)
Definition store {W} : M W (Manifests W) := λ s, (Val (fst s), s).

(** A statement on the response writer. *)
Definition respond {W} (f : http.ResponseWriter → http.ResponseWriter)
  : M W unit :=
  λ s, (Val tt, (fst s, f (snd s))).

(** [if err != nil { return err }]. *)
Definition return_on_error {W} (err : option regError) : M W unit :=
  match err with
  | Some e => Return (Some e)
  | None => ret tt
  end.

(** What the caller of a handler sees. *)
Inductive outcome :=
  | Returned (e : option regError)
  | Panicked (msg : string).

Definition call {W} (body : M W (option regError)) (s : state W)
  : outcome * state W :=
  match body s with
  | (Val e, s') => (Returned e, s')
  | (Ret e, s') => (Returned e, s')
  | (Panic msg, s') => (Panicked msg, s')
  end.

(** ** The Chart Preparer

    [registry.PrepareChart(ctx, namespace, name, reference)] is outside
    [manifest.go]: a handler knows it as a function that may change the
    store (the bindings, the tables, and the registry's own state) and
    returns an error or nil. *)
Definition Preparer (W : Type) : Type :=
  string → string → string → Manifests W →
  option regError * Manifests W.

(** ** Path classifier *)

(** The shared shape of [isManifest] and [isTags]: at least four segments
    after the leading one, the last but one equal to [word]. [None] would be
    a panic. *)
Definition is_kind (word : string) (req : http.Request) : option bool :=
  let elems := strings.Split (http.Path req) "/" in
  elems ← slice_from elems 1;
  if len elems <? 4 then Some false
  else e ← index elems (len elems - 2); Some (String.eqb e word).

Definition isManifest (req : http.Request) : option bool :=
  is_kind "manifests" req.

Definition isTags (req : http.Request) : option bool :=
  is_kind "tags" req.

Definition isCatalog (req : http.Request) : option bool :=
  let elems := strings.Split (http.Path req) "/" in
  elems ← slice_from elems 1;
  if len elems <? 2 then Some false
  else e ← index elems (len elems - 1); Some (String.eqb e "_catalog").

(** ** The handlers *)

Definition errInvalidParams : regError :=
  {| Status := http.StatusBadRequest;
     Code := "INVALID PARAMS";
     Message := "No chart name specified" |}.

Definition errNotFound : regError :=
  {| Status := http.StatusNotFound;
     Code := "NOT FOUND";
     Message := "Chart prepare error" |}.

Definition errMethodUnknown : regError :=
  {| Status := http.StatusBadRequest;
     Code := "METHOD_UNKNOWN";
     Message := "We don't understand your method + url" |}.

Definition errBadRequest (Quote : string → string) (err : strconv.NumError)
  : regError :=
  {| Status := http.StatusBadRequest;
     Code := "BAD_REQUEST";
     Message := "parsing n: " +:+ strconv.Error Quote err |}.

(** The keys of a Go map in the canonical order of the model; a [range]
    loop visits them in an order of Go's choosing, see [rangeOrder]. *)
Definition keys {A} (t : gmap string A) : list string := (map_to_list t).*1.

(** The tag loop of [handleTags]: the keys without ["sha256:"], in the
    order visited. *)
Definition collect_tags (visited : list string) : list string :=
  foldl (λ tags tag,
           if negb (strings.Contains tag "sha256:") then tags ++ [tag]
           else tags)
        [] visited.

(** The [last] loop of [handleTags] over [rest], the tags from index [i]
    on: at the first tag above [last] the slice is cut there and the loop
    left; when the loop runs out, [tags] is as it was. *)
Fixpoint last_loop (last : string) (i : Z) (rest tags : list string)
  : option (list string) :=
  match rest with
  | [] => Some tags
  | t :: rest' =>
      if String.ltb last t then slice_from tags i
      else last_loop last (i + 1) rest' tags
  end.

(** The repository loop of [handleCatalog]. *)
Fixpoint catalog_loop (n : Z) (visited : list string) (countRepos : Z)
  (repos : list string) : list string :=
  match visited with
  | [] => repos
  | key :: visited' =>
      if n <=? countRepos then repos
      else catalog_loop n visited' (countRepos + 1) (repos ++ [key])
  end.

Section Handlers.

Context {W : Type}.

(** [m.registry.PrepareChart]. *)
Variable PrepareChart : Preparer W.
(** [json.Marshal] at the two response types, and [strconv.Quote]. *)
Variable Marshal_listTags : listTags → list byte.
Variable Marshal_Catalog : Catalog → list byte.
Variable Quote : string → string.
(** The order in which a [range] loop visits the keys of a map, as a
    rearrangement of the canonical order. *)
Variable rangeOrder : list string → list string.

Definition prepare (namespace name reference : string)
  : M W (option regError) :=
  λ s, let '(err, m') := PrepareChart namespace name reference (fst s) in
       (Val err, (m', snd s)).

Definition handle (req : http.Request) : M W (option regError) :=
  let elem := strings.Split (http.Path req) "/" in
  elem <- check slice_panic (slice_from elem 1);;
  target <- check index_panic (index elem (len elem - 1));;
  sub <- check slice_panic (slice elem 1 (len elem - 2));;
  let repo := strings.Join sub "/" in
  let hostnameParts := strings.Split repo "/" in
  if String.eqb (http.Method req) http.MethodGet then
    m <- store;;
    let '(c, ok) := manifests_lookup m repo in
    (if negb ok then
       if len hostnameParts <? 2 then Return (Some errInvalidParams)
       else
         namespace <- check index_panic (index hostnameParts 0);;
         name <- check index_panic (index hostnameParts 1);;
         err <- prepare namespace name target;;
         return_on_error err
     else ret tt);;;
    m <- store;;
    ma <- match deref m c !! target with
          | Some ma => ret ma
          | None =>
              namespace <- check index_panic (index hostnameParts 0);;
              name <- check index_panic (index hostnameParts 1);;
              err <- prepare namespace name target;;
              return_on_error err;;;
              m <- store;;
              match deref m c !! target with
              | Some ma => ret ma
              | None => Return (Some errNotFound)
              end
          end;;
    let rd := sha256.Sum256 (Blob ma) in
    let d := "sha256:" +:+ hex.EncodeToString rd in
    respond (http.Header_Set "Docker-Content-Digest" d);;;
    respond (http.Header_Set "Content-Type" (ContentType ma));;;
    respond (http.Header_Set "Content-Length" (fmt.Sprint (len (Blob ma))));;;
    respond (http.WriteHeader http.StatusOK);;;
    respond (http.Write (Blob ma));;;
    ret None
  else if String.eqb (http.Method req) http.MethodHead then
    m <- store;;
    (if negb (snd (manifests_lookup m repo)) then
       if len hostnameParts <? 2 then Return (Some errInvalidParams)
       else
         namespace <- check index_panic (index hostnameParts 0);;
         name <- check index_panic (index hostnameParts 1);;
         err <- prepare namespace name target;;
         return_on_error err
     else ret tt);;;
    m <- store;;
    ma <- match manifest_lookup m repo target with
          | Some ma => ret ma
          | None =>
              namespace <- check index_panic (index hostnameParts 0);;
              name <- check index_panic (index hostnameParts 1);;
              err <- prepare namespace name target;;
              return_on_error err;;;
              m <- store;;
              match manifest_lookup m repo target with
              | Some ma => ret ma
              | None => Return (Some errNotFound)
              end
          end;;
    let rd := sha256.Sum256 (Blob ma) in
    let d := "sha256:" +:+ hex.EncodeToString rd in
    respond (http.Header_Set "Docker-Content-Digest" d);;;
    respond (http.Header_Set "Content-Type" (ContentType ma));;;
    respond (http.Header_Set "Content-Length" (fmt.Sprint (len (Blob ma))));;;
    respond (http.WriteHeader http.StatusOK);;;
    ret None
  else Return (Some errMethodUnknown).

(** The [last] query parameter of [handleTags]. *)
Definition offset_last (last : string) (tags : list string)
  : option (list string) :=
  if negb (String.eqb last "") then last_loop last 0 tags tags
  else Some tags.

(** The [n] query parameter of [handleTags]: the error of the parse, or
    the slicing step ([None] is its panic). *)
Definition limit_n (ns : string) (tags : list string)
  : strconv.NumError + option (list string) :=
  if negb (String.eqb ns "") then
    match strconv.Atoi ns with
    | (_, Some err) => inl err
    | (n, None) =>
        if n <? len tags then inr (slice_to tags n) else inr (Some tags)
    end
  else inr (Some tags).

Definition handleTags (req : http.Request) : M W (option regError) :=
  let elem := strings.Split (http.Path req) "/" in
  elem <- check slice_panic (slice_from elem 1);;
  sub <- check slice_panic (slice elem 1 (len elem - 2));;
  let repo := strings.Join sub "/" in
  let hostnameParts := strings.Split repo "/" in
  if String.eqb (http.Method req) "GET" then
    namespace <- check index_panic (index hostnameParts 0);;
    name <- check index_panic (index hostnameParts 1);;
    err <- prepare namespace name "";;
    return_on_error err;;;
    m <- store;;
    let '(c, ok) := manifests_lookup m repo in
    (if negb ok then Return (Some errNotFound) else ret tt);;;
    let tags := collect_tags (rangeOrder (keys (deref m c))) in
    let tags := sort.Strings tags in
    tags <- check slice_panic
              (offset_last (url.Get (http.Query req) "last") tags);;
    tags <- match limit_n (url.Get (http.Query req) "n") tags with
            | inl err => Return (Some (errBadRequest Quote err))
            | inr tags => check slice_panic tags
            end;;
    let tagsToList := {| Name := repo; Tags := tags |} in
    let msg := Marshal_listTags tagsToList in
    respond (http.Header_Set "Content-Length" (fmt.Sprint (len msg)));;;
    respond (http.WriteHeader http.StatusOK);;;
    respond (http.Write msg);;;
    ret None
  else Return (Some errMethodUnknown).

(** The limit of [handleCatalog]: 10000, overwritten by the value of
    [strconv.Atoi] when [n] is given, its error dropped. *)
Definition catalog_limit (nStr : string) : Z :=
  if negb (String.eqb nStr "") then fst (strconv.Atoi nStr) else 10000.

Definition handleCatalog (req : http.Request) : M W (option regError) :=
  let query := http.Query req in
  let nStr := url.Get query "n" in
  let n := catalog_limit nStr in
  if String.eqb (http.Method req) "GET" then
    m <- store;;
    let repos := catalog_loop n (rangeOrder (keys (manifests m))) 0 [] in
    let repositoriesToList := {| Repos := repos |} in
    let msg := Marshal_Catalog repositoriesToList in
    respond (http.Header_Set "Content-Length" (fmt.Sprint (len msg)));;;
    respond (http.WriteHeader http.StatusOK);;;
    respond (http.Write msg);;;
    ret None
  else Return (Some errMethodUnknown).

End Handlers.

(** ** The request shapes of the claims *)

(** The repository name and the reference that [handle] takes from a path,
    by its own three steps; [None] when one of them panics. *)
Definition manifest_parts (path : string) : option (string * string) :=
  elem ← slice_from (strings.Split path "/") 1;
  target ← index elem (len elem - 1);
  sub ← slice elem 1 (len elem - 2);
  Some (strings.Join sub "/", target).

(** The repository name that [handleTags] takes from a path. *)
Definition tags_repo (path : string) : option string :=
  elem ← slice_from (strings.Split path "/") 1;
  sub ← slice elem 1 (len elem - 2);
  Some (strings.Join sub "/").

(** The three endpoints, the classifier and the methods each serves. *)
Inductive endpoint := EManifest | ETags | ECatalog.

Definition on_path (e : endpoint) (req : http.Request) : option bool :=
  match e with
  | EManifest => isManifest req
  | ETags => isTags req
  | ECatalog => isCatalog req
  end.

Definition serves (e : endpoint) (method : string) : bool :=
  match e with
  | EManifest => String.eqb method "GET" || String.eqb method "HEAD"
  | ETags | ECatalog => String.eqb method "GET"
  end.

Definition handler {W} (PrepareChart : Preparer W)
  (Marshal_listTags : listTags → list byte)
  (Marshal_Catalog : Catalog → list byte) (Quote : string → string)
  (rangeOrder : list string → list string) (e : endpoint)
  : http.Request → M W (option regError) :=
  match e with
  | EManifest => handle PrepareChart
  | ETags => handleTags PrepareChart Marshal_listTags Quote rangeOrder
  | ECatalog => handleCatalog Marshal_Catalog rangeOrder
  end.

(** The digest string of a blob, as both branches of [handle] build it. *)
Definition digest_of (blob : list byte) : string :=
  "sha256:" +:+ hex.EncodeToString (sha256.Sum256 blob).

(** The response [handleTags] and [handleCatalog] write for a body. *)
Definition write_json (msg : list byte) (w : http.ResponseWriter)
  : http.ResponseWriter :=
  http.Write msg
    (http.WriteHeader http.StatusOK
       (http.Header_Set "Content-Length" (fmt.Sprint (len msg)) w)).

(** The response the two branches of [handle] write for a manifest. *)
Definition served_head (ma : Manifest) (w : http.ResponseWriter)
  : http.ResponseWriter :=
  http.WriteHeader http.StatusOK
    (http.Header_Set "Content-Length" (fmt.Sprint (len (Blob ma)))
       (http.Header_Set "Content-Type" (ContentType ma)
          (http.Header_Set "Docker-Content-Digest" (digest_of (Blob ma)) w))).

Definition served_get (ma : Manifest) (w : http.ResponseWriter)
  : http.ResponseWriter :=
  http.Write (Blob ma) (served_head ma w).

(** The limit the specification gives the catalog: the parsed value of [n]
    when it parses, 10000 when [n] is absent or does not parse. *)
Definition spec_catalog_limit (nStr : string) : Z :=
  match strconv.Atoi nStr with
  | (n, None) => n
  | (_, Some _) => 10000
  end.

(** ** Sample collaborators, stores and requests *)

Definition dquote : string := String "034"%char EmptyString.

(** [strconv.Quote] and [json.Marshal] on strings of printable ASCII that
    need no escape. *)
Definition plain_Quote (s : string) : string := dquote +:+ s +:+ dquote.

Definition plain_array (l : list string) : string :=
  match l with
  | [] => "null"
  | _ => "[" +:+ String.concat "," (plain_Quote <$> l) +:+ "]"
  end.

Definition plain_Marshal_listTags (v : listTags) : list byte :=
  list_byte_of_string
    ("{" +:+ plain_Quote "name" +:+ ":" +:+ plain_Quote (Name v) +:+ ","
         +:+ plain_Quote "tags" +:+ ":" +:+ plain_array (Tags v) +:+ "}").

Definition plain_Marshal_Catalog (v : Catalog) : list byte :=
  list_byte_of_string
    ("{" +:+ plain_Quote "repositories" +:+ ":" +:+ plain_array (Repos v)
         +:+ "}").

Definition chart_manifest (repo reference : string) : Manifest :=
  {| ContentType := "application/vnd.oci.image.manifest.v1+json";
     Blob := list_byte_of_string (repo +:+ ":" +:+ reference);
     Refs := [];
     CreatedAt := 0 |}.

(** A Preparer that stores a manifest under the reference asked for, in the
    repository's table when there is one and in a new table otherwise, and
    counts its invocations in the registry state. *)
Definition populate : Preparer nat :=
  λ namespace name reference m,
    let repo := namespace +:+ "/" +:+ name in
    let ma := chart_manifest repo reference in
    match manifests m !! repo with
    | Some (Some l) =>
        let t := default ∅ (heap m !! l) in
        (None, {| manifests := manifests m;
                  heap := <[l := <[reference := ma]> t]> (heap m);
                  registry := S (registry m) |})
    | _ =>
        let l := fresh (dom (heap m)) in
        (None, {| manifests := <[repo := Some l]> (manifests m);
                  heap := <[l := {[reference := ma]}]> (heap m);
                  registry := S (registry m) |})
    end.

(** A Preparer that reports success and stores nothing. *)
Definition idle : Preparer nat :=
  λ _ _ _ m,
    (None, {| manifests := manifests m; heap := heap m;
              registry := S (registry m) |}).

(** A Preparer that fails. *)
Definition errUpstream : regError :=
  {| Status := 502;
     Code := "UPSTREAM";
     Message := "chart source unreachable" |}.
Definition unreachable : Preparer nat :=
  λ _ _ _ m,
    (Some errUpstream, {| manifests := manifests m; heap := heap m;
                          registry := S (registry m) |}).

Definition empty_store : Manifests nat :=
  {| manifests := ∅; heap := ∅; registry := O |}.

(** Repository [ns/chart] with tags [a] to [d] and a digest key. *)
Definition chart_table : table :=
  list_to_map
    ((λ r, (r, chart_manifest "ns/chart" r))
       <$> ["c"; "a"; "sha256:deadbeef"; "d"; "b"]).

Definition chart_store : Manifests nat :=
  {| manifests := {[ "ns/chart" := Some 1%positive ]};
     heap := {[ 1%positive := chart_table ]};
     registry := O |}.

(** Repositories [r1], [r2], [r3], each with an empty table. *)
Definition three_repos : Manifests nat :=
  {| manifests := list_to_map [("r1", Some 1%positive); ("r2", Some 2%positive);
                               ("r3", Some 3%positive)];
     heap := list_to_map
               [(1%positive, ∅); (2%positive, ∅); (3%positive, ∅)];
     registry := O |}.

Definition request (method path : string) (query : list (string * string))
  : http.Request :=
  {| http.Method := method; http.Path := path;
     http.Query := list_to_map ((λ kv, (fst kv, [snd kv])) <$> query) |}.

(** * Properties *)

Example Split_path :
  strings.Split "/v2/ns/chart/manifests/1.0.0" "/"
  = [""; "v2"; "ns"; "chart"; "manifests"; "1.0.0"].
Proof. reflexivity. Qed.

Example Split_empty : strings.Split "" "/" = [""].
Proof. reflexivity. Qed.

Example Split_wide : strings.Split "xabab" "ab" = ["x"; ""; ""].
Proof. reflexivity. Qed.

Example Join_parts : strings.Join ["ns"; "chart"] "/" = "ns/chart".
Proof. reflexivity. Qed.

Example Contains_digest :
  strings.Contains "sha256:deadbeef" "sha256:" = true
  ∧ strings.Contains "1.0.0" "sha256:" = false.
Proof. split; reflexivity. Qed.

Example Atoi_samples :
  strconv.Atoi "42" = (42, None)
  ∧ strconv.Atoi "-1" = (-1, None)
  ∧ fst (strconv.Atoi "abc") = 0
  ∧ fst (strconv.Atoi "") = 0
  ∧ fst (strconv.Atoi "+") = 0
  ∧ fst (strconv.Atoi "9223372036854775808") = 9223372036854775807
  ∧ strconv.Atoi "-9223372036854775808" = (-9223372036854775808, None)
  ∧ fst (strconv.Atoi "99999999999999999999x") = 9223372036854775807.
Proof. repeat split; vm_compute; reflexivity. Qed.

Example Sprint_samples : fmt.Sprint 0 = "0" ∧ fmt.Sprint 1234 = "1234".
Proof. split; reflexivity. Qed.

Example round_constants :
  length sha256._K = 64%nat
  ∧ sha256._K !! 0%nat = Some 0x428a2f98
  ∧ sha256._K !! 63%nat = Some 0xc67178f2
  ∧ sha256.init !! 0%nat = Some 0x6a09e667
  ∧ sha256.init !! 7%nat = Some 0x5be0cd19.
Proof. repeat split; reflexivity. Qed.

Example Sum256_empty :
  hex.EncodeToString (sha256.Sum256 [])
  = "e3b0c44298fc1c149afbf4c8996fb92427ae41e4649b934ca495991b7852b855".
Proof. vm_compute. reflexivity. Qed.

Example Sum256_abc :
  hex.EncodeToString (sha256.Sum256 (list_byte_of_string "abc"))
  = "ba7816bf8f01cfea414140de5dae2223b00361a396177a9cb410ff61f20015ad".
Proof. vm_compute. reflexivity. Qed.

Example Sum256_two_blocks :
  hex.EncodeToString (sha256.Sum256 (replicate 70 "a"%byte))
  = "6bd5e5034855a11241f0dee8fc72850ffd9955b28347a86428b5fa19119f6ad0".
Proof. vm_compute. reflexivity. Qed.

(** ** Slices, splitting and the path classifier *)

Arguments sha256.Sum256 : simpl never.
Arguments hex.EncodeToString : simpl never.
Arguments fmt.Sprint : simpl never.
Arguments strings.Split : simpl never.
Arguments strings.Join : simpl never.

Lemma len_nonneg {A} (l : list A) : 0 ≤ len l.
Proof. unfold len. lia. Qed.

Lemma len_cons {A} (x : A) l : len (x :: l) = len l + 1.
Proof. unfold len. simpl. lia. Qed.

Lemma index_zero {A} (x : A) l : index (x :: l) 0 = Some x.
Proof. reflexivity. Qed.

Lemma index_short {A} (l : list A) i : len l ≤ i → index l i = None.
Proof.
  intros H. unfold index.
  destruct (i <? 0); [done|]. simpl.
  destruct (len l <=? i) eqn:E; [done|]. apply Z.leb_gt in E. lia.
Qed.

Lemma index_is_Some {A} (l : list A) i :
  0 ≤ i < len l → is_Some (index l i).
Proof.
  intros [H0 H1]. unfold index.
  destruct (i <? 0) eqn:E0; [apply Z.ltb_lt in E0; lia|].
  destruct (len l <=? i) eqn:E1; [apply Z.leb_le in E1; lia|]. simpl.
  apply lookup_lt_is_Some. unfold len in H1. lia.
Qed.

Lemma slice_is_Some {A} (l : list A) lo hi :
  0 ≤ lo ≤ hi → hi ≤ len l → is_Some (slice l lo hi).
Proof.
  intros [H0 H1] H2. unfold slice.
  destruct (lo <? 0) eqn:E0; [apply Z.ltb_lt in E0; lia|].
  destruct (hi <? lo) eqn:E1; [apply Z.ltb_lt in E1; lia|].
  destruct (len l <? hi) eqn:E2; [apply Z.ltb_lt in E2; lia|]. simpl. eauto.
Qed.

Lemma slice_from_len {A} (l l' : list A) lo :
  slice_from l lo = Some l' →
  len l' = len l - lo ∧ 0 ≤ lo ≤ len l ∧ l' = drop (Z.to_nat lo) l.
Proof.
  unfold slice_from, slice. intros H.
  destruct (lo <? 0) eqn:E0; [done|].
  destruct (len l <? lo) eqn:E1; [done|].
  destruct (len l <? len l) eqn:E2; [done|]. simpl in H.
  apply Z.ltb_ge in E0, E1. injection H as <-.
  assert (Hd : length (drop (Z.to_nat lo) l) = Z.to_nat (len l - lo)).
  { rewrite length_drop. unfold len. lia. }
  rewrite take_ge by lia. split; [|done].
  unfold len at 1. rewrite Hd. lia.
Qed.

Lemma index_1_len {A} (l : list A) x :
  index l 1 = Some x → (len l <? 2) = false.
Proof.
  intros H. apply Z.ltb_ge.
  destruct (Z.le_gt_cases 2 (len l)) as [|Hlt]; [done|].
  rewrite index_short in H by lia. done.
Qed.

Lemma Split_go_nonempty sep skip cur s : strings.Split_go sep skip cur s ≠ [].
Proof.
  revert skip cur. induction s as [|a s IH]; intros skip cur; simpl; [done|].
  destruct skip; [|apply IH].
  match goal with |- (if ?b then _ else _) ≠ _ => destruct b end;
    [done|apply IH].
Qed.

Lemma Split_len sep s : 1 ≤ len (strings.Split s sep).
Proof.
  unfold strings.Split.
  pose proof (Split_go_nonempty sep O EmptyString s).
  destruct (strings.Split_go sep 0 "" s); [done|]. rewrite len_cons.
  pose proof (len_nonneg l). lia.
Qed.

Lemma is_kind_total word req : is_Some (is_kind word req).
Proof.
  unfold is_kind.
  destruct (slice_is_Some (strings.Split (http.Path req) "/") 1
              (len (strings.Split (http.Path req) "/"))) as [elems He].
  { pose proof (Split_len "/" (http.Path req)). lia. }
  { lia. }
  unfold slice_from. rewrite He. simpl.
  destruct (len elems <? 4) eqn:E; [eauto|]. apply Z.ltb_ge in E.
  destruct (index_is_Some elems (len elems - 2)) as [e Hi]; [lia|].
  rewrite Hi. simpl. eauto.
Qed.

Lemma is_kind_true word req :
  is_kind word req = Some true →
  ∃ repo target, manifest_parts (http.Path req) = Some (repo, target)
                 ∧ tags_repo (http.Path req) = Some repo.
Proof.
  unfold is_kind, manifest_parts, tags_repo.
  destruct (slice_from _ 1) as [elems|]; simpl; [|done].
  destruct (len elems <? 4) eqn:E; [done|]. apply Z.ltb_ge in E. intros _.
  destruct (index_is_Some elems (len elems - 1)) as [t Ht]; [lia|].
  destruct (slice_is_Some elems 1 (len elems - 2)) as [sub Hs]; [lia|lia|].
  rewrite Ht, Hs. simpl. eauto.
Qed.

(** ** Stepping through a handler *)

Lemma manifest_parts_steps path repo target :
  manifest_parts path = Some (repo, target) →
  ∃ elem sub,
    slice_from (strings.Split path "/") 1 = Some elem
    ∧ index elem (len elem - 1) = Some target
    ∧ slice elem 1 (len elem - 2) = Some sub
    ∧ repo = strings.Join sub "/".
Proof.
  unfold manifest_parts. intros H.
  destruct (slice_from _ 1) as [elem|]; simpl in H; [|done].
  destruct (index elem _) as [t|] eqn:Ht; simpl in H; [|done].
  destruct (slice elem 1 _) as [sub|] eqn:Hs; simpl in H; [|done].
  injection H as <- <-. exists elem, sub. repeat split; done.
Qed.

Section monad_laws.
Context {W : Type}.
Implicit Types s : state W.

Lemma bind_assoc {A B C} (c : M W A) (k1 : A → M W B) (k2 : B → M W C) s :
  bind (bind c k1) k2 s = bind c (λ a, bind (k1 a) k2) s.
Proof. unfold bind. destruct (c s) as [[a|e|msg] s']; reflexivity. Qed.

Lemma bind_ret {A B} (a : A) (k : A → M W B) s : bind (ret a) k s = k a s.
Proof. reflexivity. Qed.

Lemma bind_Return {A B} e (k : A → M W B) s :
  bind (Return e) k s = (Ret e, s).
Proof. reflexivity. Qed.

Lemma bind_check_Some {A B} msg (a : A) (k : A → M W B) s :
  bind (check msg (Some a)) k s = k a s.
Proof. reflexivity. Qed.

Lemma bind_check_None {A B} msg (k : A → M W B) s :
  bind (check msg None) k s = (Panic msg, s).
Proof. reflexivity. Qed.

Lemma bind_store {B} (k : Manifests W → M W B) s :
  bind store k s = k (fst s) s.
Proof. reflexivity. Qed.

Lemma bind_respond {B} f (k : unit → M W B) s :
  bind (respond f) k s = k tt (fst s, f (snd s)).
Proof. reflexivity. Qed.

Lemma bind_return_on_error_None {B} (k : unit → M W B) s :
  bind (return_on_error None) k s = k tt s.
Proof. reflexivity. Qed.

Lemma bind_return_on_error_Some {B} e (k : unit → M W B) s :
  bind (return_on_error (Some e)) k s = (Ret (Some e), s).
Proof. reflexivity. Qed.

Lemma bind_prepare {B} (P : Preparer W) a b c
  (k : option regError → M W B) s :
  bind (prepare P a b c) k s
  = k (fst (P a b c (fst s))) (snd (P a b c (fst s)), snd s).
Proof. unfold bind, prepare. destruct (P a b c (fst s)). reflexivity. Qed.
End monad_laws.

Global Opaque bind.

Create Rewrite HintDb handler_steps.
Hint Rewrite @bind_assoc @bind_ret @bind_Return @bind_check_Some
  @bind_check_None @bind_store @bind_respond @bind_return_on_error_None
  @bind_return_on_error_Some @bind_prepare : handler_steps.

(** Run the statements at the head of a handler. *)
Ltac steps :=
  repeat (progress (autorewrite with handler_steps;
                    cbn beta iota zeta match delta [fst snd negb])).

Ltac eval_eqb :=
  repeat match goal with
         | |- context [String.eqb ?a ?b] =>
             let v := eval vm_compute in (String.eqb a b) in
             change (String.eqb a b) with v
         end;
  cbn beta iota zeta match.

Ltac enter_handle Hparts :=
  let elem := fresh "elem" in
  let sub := fresh "sub" in
  let H1 := fresh "Hsplit" in
  let H2 := fresh "Htarget" in
  let H3 := fresh "Hsub" in
  let H4 := fresh "Hrepo" in
  destruct (manifest_parts_steps _ _ _ Hparts)
    as (elem & sub & H1 & H2 & H3 & H4);
  unfold call, handle; cbn zeta; rewrite H1; steps; rewrite H2; steps;
  rewrite H3; steps; rewrite <- H4.

Lemma manifest_lookup_present {W} (m : Manifests W) repo target ma :
  manifest_lookup m repo target = Some ma →
  ∃ c, manifests m !! repo = Some c ∧ deref m c !! target = Some ma.
Proof.
  unfold manifest_lookup, manifests_lookup.
  destruct (manifests m !! repo) as [c|]; simpl; [eauto|].
  rewrite lookup_empty. done.
Qed.

Lemma manifest_lookup_absent {W} (m : Manifests W) repo target :
  manifests m !! repo = None → manifest_lookup m repo target = None.
Proof.
  unfold manifest_lookup, manifests_lookup. intros ->. apply lookup_empty.
Qed.

Section handle_facts.
Context {W : Type} (P : Preparer W).

Lemma handle_method_unknown req repo target s :
  manifest_parts (http.Path req) = Some (repo, target) →
  serves EManifest (http.Method req) = false →
  call (handle P req) s = (Returned (Some errMethodUnknown), s).
Proof.
  intros Hparts Hm. simpl in Hm. apply orb_false_iff in Hm as [Hg Hh].
  enter_handle Hparts. unfold http.MethodGet, http.MethodHead.
  rewrite Hg, Hh. reflexivity.
Qed.

Lemma handle_invalid_name req repo target m w :
  manifest_parts (http.Path req) = Some (repo, target) →
  serves EManifest (http.Method req) = true →
  manifests m !! repo = None →
  len (strings.Split repo "/") < 2 →
  call (handle P req) (m, w) = (Returned (Some errInvalidParams), (m, w)).
Proof.
  intros Hparts Hm Habs Hlen. simpl in Hm. apply Z.ltb_lt in Hlen.
  enter_handle Hparts. unfold http.MethodGet, http.MethodHead.
  destruct (String.eqb (http.Method req) "GET"); simpl in Hm; rewrite ?Hm;
    steps; unfold manifests_lookup; rewrite Habs; steps; rewrite Hlen;
    steps; reflexivity.
Qed.

Lemma handle_hit req repo target m w ma :
  manifest_parts (http.Path req) = Some (repo, target) →
  manifest_lookup m repo target = Some ma →
  (http.Method req = "GET" →
   call (handle P req) (m, w) = (Returned None, (m, served_get ma w)))
  ∧ (http.Method req = "HEAD" →
     call (handle P req) (m, w) = (Returned None, (m, served_head ma w))).
Proof.
  intros Hparts Hma.
  destruct (manifest_lookup_present _ _ _ _ Hma) as (c & Hrepo & Hc).
  split; intros Hm; enter_handle Hparts; rewrite Hm; eval_eqb; steps;
    unfold manifests_lookup; repeat (rewrite Hrepo; steps);
    rewrite ?Hma, ?Hc; steps; reflexivity.
Qed.

End handle_facts.

(** ** Population on a miss *)

(** One case split of a handler run: on the result of the Preparer, on a
    lookup or an index, on a test. *)
Ltac branch P :=
  match goal with
  | |- context [check _ ?o] =>
      lazymatch o with
      | Some _ => fail
      | None => fail
      | _ => destruct o eqn:?
      end
  | |- context [P ?a ?b ?c ?m] => destruct (P a b c m) as [[?|] ?] eqn:?
  | |- context [match ?x with _ => _ end] =>
      lazymatch type of x with
      | option _ => destruct x eqn:?
      | bool => destruct x eqn:?
      end
  end.

Section handle_population.
Context {W : Type} (P : Preparer W).

(** With the repository absent the GET branch holds the nil map in [c]:
    whatever the Preparer stores, both lookups miss. *)
Lemma handle_GET_absent req repo target m w namespace name m1 m2 :
  manifest_parts (http.Path req) = Some (repo, target) →
  http.Method req = "GET" →
  manifests m !! repo = None →
  index (strings.Split repo "/") 0 = Some namespace →
  index (strings.Split repo "/") 1 = Some name →
  P namespace name target m = (None, m1) →
  P namespace name target m1 = (None, m2) →
  call (handle P req) (m, w) = (Returned (Some errNotFound), (m2, w)).
Proof.
  intros Hparts Hm Habs H0 H1 HP1 HP2.
  assert (Hlen : (len (strings.Split repo "/") <? 2) = false).
  { by apply (index_1_len _ name). }
  enter_handle Hparts. rewrite Hm. eval_eqb. steps.
  unfold manifests_lookup. rewrite Habs. steps. rewrite Hlen, H0. steps.
  rewrite H1. steps. rewrite HP1. steps.
  unfold deref at 1. rewrite lookup_empty. steps.
  rewrite HP2. steps. unfold deref. rewrite lookup_empty. steps. reflexivity.
Qed.

Lemma handle_GET_absent_never_served req repo target m w :
  manifest_parts (http.Path req) = Some (repo, target) →
  http.Method req = "GET" →
  manifests m !! repo = None →
  fst (call (handle P req) (m, w)) ≠ Returned None.
Proof.
  intros Hparts Hm Habs.
  enter_handle Hparts. rewrite Hm. eval_eqb. steps.
  unfold manifests_lookup. rewrite Habs. steps.
  destruct (len (strings.Split repo "/") <? 2); steps; [discriminate|].
  destruct (index (strings.Split repo "/") 0) as [namespace|]; steps;
    [|discriminate].
  destruct (index (strings.Split repo "/") 1) as [name|]; steps;
    [|discriminate].
  destruct (P namespace name target m) as [[e|] m1]; steps; [discriminate|].
  unfold deref at 1. rewrite lookup_empty. steps.
  destruct (P namespace name target m1) as [[e|] m2]; steps; [discriminate|].
  unfold deref. rewrite lookup_empty. steps. discriminate.
Qed.

(** The HEAD branch reads the binding again after the Preparer ran. *)
Lemma handle_HEAD_absent_populated req repo target m w namespace name m1 ma :
  manifest_parts (http.Path req) = Some (repo, target) →
  http.Method req = "HEAD" →
  manifests m !! repo = None →
  index (strings.Split repo "/") 0 = Some namespace →
  index (strings.Split repo "/") 1 = Some name →
  P namespace name target m = (None, m1) →
  manifest_lookup m1 repo target = Some ma →
  call (handle P req) (m, w) = (Returned None, (m1, served_head ma w)).
Proof.
  intros Hparts Hm Habs H0 H1 HP1 Hma.
  assert (Hlen : (len (strings.Split repo "/") <? 2) = false).
  { by apply (index_1_len _ name). }
  enter_handle Hparts. rewrite Hm. eval_eqb. steps.
  unfold manifests_lookup at 1. rewrite Habs. steps. rewrite Hlen, H0. steps.
  rewrite H1. steps. rewrite HP1. steps. rewrite Hma. steps. reflexivity.
Qed.

Lemma handle_HEAD_absent_not_inserted req repo target m w namespace name m1 m2 :
  manifest_parts (http.Path req) = Some (repo, target) →
  http.Method req = "HEAD" →
  manifests m !! repo = None →
  index (strings.Split repo "/") 0 = Some namespace →
  index (strings.Split repo "/") 1 = Some name →
  P namespace name target m = (None, m1) →
  manifest_lookup m1 repo target = None →
  P namespace name target m1 = (None, m2) →
  manifest_lookup m2 repo target = None →
  call (handle P req) (m, w) = (Returned (Some errNotFound), (m2, w)).
Proof.
  intros Hparts Hm Habs H0 H1 HP1 Hma1 HP2 Hma2.
  assert (Hlen : (len (strings.Split repo "/") <? 2) = false).
  { by apply (index_1_len _ name). }
  enter_handle Hparts. rewrite Hm. eval_eqb. steps.
  unfold manifests_lookup at 1. rewrite Habs. steps. rewrite Hlen, H0. steps.
  rewrite H1. steps. rewrite HP1. steps. rewrite Hma1. steps.
  rewrite HP2. steps. rewrite Hma2. steps. reflexivity.
Qed.

(** Every response of [handle] with a nil error serves a manifest it read
    from the store. *)
Lemma handle_served req m w m' w' :
  call (handle P req) (m, w) = (Returned None, (m', w')) →
  ∃ repo target ma,
    manifest_parts (http.Path req) = Some (repo, target)
    ∧ ((http.Method req = "GET"
        ∧ deref m' (fst (manifests_lookup m repo)) !! target = Some ma
        ∧ w' = served_get ma w)
       ∨ (http.Method req = "HEAD"
          ∧ manifest_lookup m' repo target = Some ma
          ∧ w' = served_head ma w)).
Proof.
  intros Hcall.
  destruct (manifest_parts (http.Path req)) as [[repo target]|] eqn:Hparts.
  2:{ exfalso. revert Hcall. unfold manifest_parts in Hparts.
      unfold call, handle. cbn zeta.
      destruct (slice_from _ 1) as [elem|]; steps; [|done]. simpl in Hparts.
      destruct (index elem _) as [t|]; steps; [|done]. simpl in Hparts.
      destruct (slice elem 1 _) as [sub|]; steps; [|done]. done. }
  exists repo, target. revert Hcall. enter_handle Hparts.
  unfold http.MethodGet, http.MethodHead.
  destruct (String.eqb (http.Method req) "GET") eqn:Hg.
  - apply String.eqb_eq in Hg. steps.
    destruct (manifests_lookup m repo) as [c ok]. steps.
    repeat (steps; branch P); steps; try discriminate.
    all: intros Heq; try discriminate Heq; injection Heq as <- <-;
      eauto 10.
  - steps. destruct (String.eqb (http.Method req) "HEAD") eqn:Hh;
      [|steps; discriminate].
    apply String.eqb_eq in Hh. steps.
    repeat (steps; branch P); steps; try discriminate.
    all: intros Heq; try discriminate Heq; injection Heq as <- <-;
      eauto 10.
Qed.
End handle_population.

(** ** The steps of [handleTags] *)

Lemma tags_repo_steps path repo :
  tags_repo path = Some repo →
  ∃ elem sub,
    slice_from (strings.Split path "/") 1 = Some elem
    ∧ slice elem 1 (len elem - 2) = Some sub
    ∧ repo = strings.Join sub "/".
Proof.
  unfold tags_repo. intros H.
  destruct (slice_from _ 1) as [elem|]; simpl in H; [|done].
  destruct (slice elem 1 _) as [sub|] eqn:Hs; simpl in H; [|done].
  injection H as <-. exists elem, sub. repeat split; done.
Qed.

Ltac enter_handleTags Hparts :=
  let elem := fresh "elem" in
  let sub := fresh "sub" in
  let H1 := fresh "Hsplit" in
  let H3 := fresh "Hsub" in
  let H4 := fresh "Hrepo" in
  destruct (tags_repo_steps _ _ Hparts) as (elem & sub & H1 & H3 & H4);
  unfold call, handleTags; cbn zeta; rewrite H1; steps; rewrite H3; steps;
  rewrite <- H4.

Section handleTags_facts.
Context {W : Type} (P : Preparer W).
Context (Marshal_listTags : listTags → list byte) (Quote : string → string).
Context (rangeOrder : list string → list string).

Abbreviation handleTags' := (handleTags P Marshal_listTags Quote rangeOrder).

Lemma handleTags_method_unknown req repo s :
  tags_repo (http.Path req) = Some repo →
  String.eqb (http.Method req) "GET" = false →
  call (handleTags' req) s = (Returned (Some errMethodUnknown), s).
Proof.
  intros Hparts Hm. enter_handleTags Hparts. rewrite Hm. reflexivity.
Qed.

Lemma handleTags_short_name req repo s :
  tags_repo (http.Path req) = Some repo →
  http.Method req = "GET" →
  len (strings.Split repo "/") < 2 →
  call (handleTags' req) s = (Panicked index_panic, s).
Proof.
  intros Hparts Hm Hlen. enter_handleTags Hparts. rewrite Hm. eval_eqb.
  destruct (index_is_Some (strings.Split repo "/") 0) as [h0 H0].
  { pose proof (Split_len "/" repo). lia. }
  rewrite H0. steps. rewrite index_short by lia. steps. reflexivity.
Qed.

Lemma handleTags_prepare_error req repo m w namespace name e m1 :
  tags_repo (http.Path req) = Some repo →
  http.Method req = "GET" →
  index (strings.Split repo "/") 0 = Some namespace →
  index (strings.Split repo "/") 1 = Some name →
  P namespace name "" m = (Some e, m1) →
  call (handleTags' req) (m, w) = (Returned (Some e), (m1, w)).
Proof.
  intros Hparts Hm H0 H1 HP. enter_handleTags Hparts. rewrite Hm. eval_eqb.
  rewrite H0. steps. rewrite H1. steps. rewrite HP. steps. reflexivity.
Qed.

Lemma handleTags_absent req repo m w namespace name m1 :
  tags_repo (http.Path req) = Some repo →
  http.Method req = "GET" →
  index (strings.Split repo "/") 0 = Some namespace →
  index (strings.Split repo "/") 1 = Some name →
  P namespace name "" m = (None, m1) →
  manifests m1 !! repo = None →
  call (handleTags' req) (m, w) = (Returned (Some errNotFound), (m1, w)).
Proof.
  intros Hparts Hm H0 H1 HP Habs. enter_handleTags Hparts. rewrite Hm. eval_eqb.
  rewrite H0. steps. rewrite H1. steps. rewrite HP. steps.
  unfold manifests_lookup. rewrite Habs. steps. reflexivity.
Qed.

(** Once the Preparer has succeeded and the repository is bound, the answer
    is the pagination of the sorted tag list. *)
Lemma handleTags_listing req repo m w namespace name m1 c :
  tags_repo (http.Path req) = Some repo →
  http.Method req = "GET" →
  index (strings.Split repo "/") 0 = Some namespace →
  index (strings.Split repo "/") 1 = Some name →
  P namespace name "" m = (None, m1) →
  manifests m1 !! repo = Some c →
  call (handleTags' req) (m, w)
  = match offset_last (url.Get (http.Query req) "last")
            (sort.Strings (collect_tags (rangeOrder (keys (deref m1 c))))) with
    | None => (Panicked slice_panic, (m1, w))
    | Some tags =>
        match limit_n (url.Get (http.Query req) "n") tags with
        | inl err => (Returned (Some (errBadRequest Quote err)), (m1, w))
        | inr None => (Panicked slice_panic, (m1, w))
        | inr (Some tags) =>
            (Returned None,
             (m1, write_json
                    (Marshal_listTags {| Name := repo; Tags := tags |}) w))
        end
    end.
Proof.
  intros Hparts Hm H0 H1 HP Hrepo. enter_handleTags Hparts. rewrite Hm.
  eval_eqb.
  rewrite H0. steps. rewrite H1. steps. rewrite HP. steps.
  unfold manifests_lookup. rewrite Hrepo. steps.
  destruct (offset_last _ _) as [tags|]; steps; [|reflexivity].
  destruct (limit_n _ tags) as [err|[tags'|]]; steps; reflexivity.
Qed.
End handleTags_facts.

(** ** The [last] cursor *)

Lemma slice_from_drop {A} (l : list A) (i : nat) :
  (i ≤ length l)%nat → slice_from l (Z.of_nat i) = Some (drop i l).
Proof.
  intros Hi. unfold slice_from, slice, len.
  destruct (Z.of_nat i <? 0) eqn:E0; [apply Z.ltb_lt in E0; lia|].
  destruct (Z.of_nat (length l) <? Z.of_nat i) eqn:E1;
    [apply Z.ltb_lt in E1; lia|].
  destruct (Z.of_nat (length l) <? Z.of_nat (length l)) eqn:E2;
    [apply Z.ltb_lt in E2; lia|].
  simpl. rewrite Nat2Z.id. f_equal. apply take_ge. rewrite length_drop. lia.
Qed.

(** The loop runs out when no tag it visits is above [last]. *)
Lemma last_loop_none last i rest tags :
  Forall (λ t, String.ltb last t = false) rest →
  last_loop last i rest tags = Some tags.
Proof.
  intros H. revert i.
  induction H as [|t rest Ht _ IH]; intros i; simpl; [done|].
  rewrite Ht. apply IH.
Qed.

(** The loop cuts at the first tag above [last]. *)
Lemma last_loop_cut last pre skipped t post :
  Forall (λ x, String.ltb last x = false) skipped →
  String.ltb last t = true →
  last_loop last (Z.of_nat (length pre)) (skipped ++ t :: post)
    (pre ++ skipped ++ t :: post)
  = Some (t :: post).
Proof.
  intros Hs Ht. revert pre.
  induction Hs as [|x skipped Hx _ IH]; intros pre; simpl.
  - rewrite Ht. rewrite slice_from_drop by (rewrite length_app; lia).
    by rewrite drop_app_length.
  - rewrite Hx.
    replace (Z.of_nat (length pre) + 1) with (Z.of_nat (length (pre ++ [x])))
      by (rewrite length_app; simpl; lia).
    replace (pre ++ x :: skipped ++ t :: post)
      with ((pre ++ [x]) ++ skipped ++ t :: post)
      by (by rewrite <- app_assoc).
    apply IH.
Qed.

(** Every list splits at its first element above [last], if it has one. *)
Lemma first_above last (tags : list string) :
  Forall (λ t, String.ltb last t = false) tags
  ∨ ∃ skipped t post,
      tags = skipped ++ t :: post
      ∧ Forall (λ x, String.ltb last x = false) skipped
      ∧ String.ltb last t = true.
Proof.
  induction tags as [|x tags IH]; [by left|].
  destruct (String.ltb last x) eqn:Hx.
  - right. exists [], x, tags. by repeat split.
  - destruct IH as [IH|(skipped & t & post & -> & Hs & Ht)].
    + left. by constructor.
    + right. exists (x :: skipped), t, post. repeat split; [|done].
      by constructor.
Qed.

Lemma offset_last_empty tags : offset_last "" tags = Some tags.
Proof. reflexivity. Qed.

Lemma offset_last_none last tags :
  Forall (λ t, String.ltb last t = false) tags →
  offset_last last tags = Some tags.
Proof.
  intros H. unfold offset_last. destruct (negb _); [|done].
  by apply last_loop_none.
Qed.

Lemma offset_last_cut last skipped t post :
  last ≠ "" →
  Forall (λ x, String.ltb last x = false) skipped →
  String.ltb last t = true →
  offset_last last (skipped ++ t :: post) = Some (t :: post).
Proof.
  intros Hne Hs Ht. unfold offset_last.
  apply String.eqb_neq in Hne. rewrite Hne. simpl.
  apply (last_loop_cut last [] skipped t post Hs Ht).
Qed.

(** The cursor step never panics, and what it returns is a suffix. *)
Lemma offset_last_suffix last tags :
  ∃ tags', offset_last last tags = Some tags' ∧ tags' `suffix_of` tags.
Proof.
  destruct (decide (last = "")) as [->|Hne]; [by exists tags|].
  destruct (first_above last tags) as [H|(skipped & t & post & -> & Hs & Ht)].
  - exists tags. split; [by apply offset_last_none|done].
  - exists (t :: post). split; [by apply offset_last_cut|].
    by apply suffix_app_r.
Qed.

(** ** The limit [n] *)

Lemma Atoi_empty : snd (strconv.Atoi "") ≠ None.
Proof. discriminate. Qed.

Lemma limit_n_empty tags : limit_n "" tags = inr (Some tags).
Proof. reflexivity. Qed.

Lemma limit_n_unparsable ns v err tags :
  ns ≠ "" → strconv.Atoi ns = (v, Some err) → limit_n ns tags = inl err.
Proof.
  intros Hne H. unfold limit_n. apply String.eqb_neq in Hne.
  rewrite Hne, H. reflexivity.
Qed.

Lemma Atoi_parsed_nonempty ns n : strconv.Atoi ns = (n, None) → ns ≠ "".
Proof. intros H ->. discriminate H. Qed.

Lemma limit_n_truncate ns n tags :
  strconv.Atoi ns = (n, None) → 0 ≤ n < len tags →
  limit_n ns tags = inr (Some (take (Z.to_nat n) tags)).
Proof.
  intros H [H0 H1]. pose proof (Atoi_parsed_nonempty _ _ H) as Hne.
  unfold limit_n. apply String.eqb_neq in Hne. rewrite Hne, H. simpl.
  destruct (n <? len tags) eqn:E; [|apply Z.ltb_ge in E; lia].
  unfold slice_to, slice.
  destruct (n <? 0) eqn:E0; [apply Z.ltb_lt in E0; lia|].
  destruct (len tags <? n) eqn:E1; [apply Z.ltb_lt in E1; lia|].
  simpl. by rewrite Z.sub_0_r.
Qed.

Lemma limit_n_keep ns n tags :
  strconv.Atoi ns = (n, None) → len tags ≤ n →
  limit_n ns tags = inr (Some tags).
Proof.
  intros H Hn. pose proof (Atoi_parsed_nonempty _ _ H) as Hne.
  unfold limit_n. apply String.eqb_neq in Hne. rewrite Hne, H. simpl.
  destruct (n <? len tags) eqn:E; [apply Z.ltb_lt in E; lia|done].
Qed.

Lemma limit_n_negative ns n tags :
  strconv.Atoi ns = (n, None) → n < 0 → limit_n ns tags = inr None.
Proof.
  intros H Hn. pose proof (Atoi_parsed_nonempty _ _ H) as Hne.
  unfold limit_n. apply String.eqb_neq in Hne. rewrite Hne, H. simpl.
  pose proof (len_nonneg tags).
  destruct (n <? len tags) eqn:E; [|apply Z.ltb_ge in E; lia].
  unfold slice_to, slice.
  destruct (n <? 0) eqn:E0; [done|apply Z.ltb_ge in E0; lia].
Qed.

(** The limit never lengthens the list: a result is a prefix. *)
Lemma limit_n_prefix ns tags tags' :
  limit_n ns tags = inr (Some tags') → tags' `prefix_of` tags.
Proof.
  unfold limit_n. destruct (negb _); [|by intros [= <-]].
  destruct (strconv.Atoi ns) as [n [err|]]; [done|].
  destruct (n <? len tags); [|by intros [= <-]].
  unfold slice_to, slice. destruct (_ || _); [done|].
  simpl. intros [= <-]. apply prefix_take.
Qed.

(** ** The tag list *)

Lemma collect_tags_filter visited :
  collect_tags visited
  = filter (λ key, strings.Contains key "sha256:" = false) visited.
Proof.
  unfold collect_tags.
  enough (∀ acc,
            foldl (λ tags tag,
                     if negb (strings.Contains tag "sha256:")
                     then tags ++ [tag] else tags) acc visited
            = acc ++ filter (λ key, strings.Contains key "sha256:" = false)
                       visited) as H by apply (H []).
  induction visited as [|key visited IH]; intros acc; simpl.
  - by rewrite app_nil_r.
  - rewrite IH, filter_cons. simpl.
    destruct (decide (strings.Contains key "sha256:" = false)) as [Hd|Hd].
    + rewrite Hd. simpl. by rewrite <- app_assoc.
    + apply not_false_is_true in Hd. rewrite Hd. done.
Qed.

Lemma elem_of_keys {A} (t : gmap string A) key :
  key ∈ keys t ↔ is_Some (t !! key).
Proof.
  unfold keys. rewrite list_elem_of_fmap. split.
  - intros [[k v] [-> H]]. apply elem_of_map_to_list in H. by exists v.
  - intros [v H]. exists (key, v). split; [done|].
    by apply elem_of_map_to_list.
Qed.

Lemma NoDup_keys {A} (t : gmap string A) : NoDup (keys t).
Proof. apply NoDup_fst_map_to_list. Qed.

Lemma length_keys {A} (t : gmap string A) : length (keys t) = size t.
Proof. unfold keys. rewrite length_fmap. by rewrite length_map_to_list. Qed.

Section tag_list.
Context (rangeOrder : list string → list string).
Hypothesis rangeOrder_perm : ∀ l, rangeOrder l ≡ₚ l.

Lemma tag_list_perm (t : table) :
  sort.Strings (collect_tags (rangeOrder (keys t)))
  ≡ₚ filter (λ key, strings.Contains key "sha256:" = false) (keys t).
Proof.
  unfold sort.Strings. rewrite merge_sort_Permutation.
  rewrite collect_tags_filter. by rewrite rangeOrder_perm.
Qed.

Lemma tag_list_elem_of (t : table) key :
  key ∈ sort.Strings (collect_tags (rangeOrder (keys t)))
  ↔ is_Some (t !! key) ∧ strings.Contains key "sha256:" = false.
Proof.
  rewrite tag_list_perm. rewrite list_elem_of_filter, elem_of_keys. tauto.
Qed.

Lemma tag_list_sorted (t : table) :
  StronglySorted String.le (sort.Strings (collect_tags (rangeOrder (keys t)))).
Proof. apply StronglySorted_merge_sort; apply _. Qed.

Lemma tag_list_NoDup (t : table) :
  NoDup (sort.Strings (collect_tags (rangeOrder (keys t)))).
Proof.
  rewrite tag_list_perm. apply NoDup_filter, NoDup_keys.
Qed.
End tag_list.

(** The order of the [range] loop does not show in the tag list. *)
Lemma tag_list_order_irrelevant (order1 order2 : list string → list string)
  (t : table) :
  (∀ l, order1 l ≡ₚ l) → (∀ l, order2 l ≡ₚ l) →
  sort.Strings (collect_tags (order1 (keys t)))
  = sort.Strings (collect_tags (order2 (keys t))).
Proof.
  intros H1 H2.
  apply (StronglySorted_unique String.le).
  - by apply tag_list_sorted.
  - by apply tag_list_sorted.
  - by rewrite !tag_list_perm.
Qed.

(** ** The catalog loop *)

Lemma catalog_loop_take n visited countRepos repos :
  catalog_loop n visited countRepos repos
  = repos ++ take (Z.to_nat (n - countRepos)) visited.
Proof.
  revert countRepos repos.
  induction visited as [|key visited IH]; intros countRepos repos; simpl.
  - by rewrite take_nil, app_nil_r.
  - destruct (n <=? countRepos) eqn:E.
    + apply Z.leb_le in E. replace (Z.to_nat (n - countRepos)) with O by lia.
      by rewrite app_nil_r.
    + apply Z.leb_gt in E. rewrite IH.
      replace (Z.to_nat (n - countRepos))
        with (S (Z.to_nat (n - (countRepos + 1)))) by lia.
      simpl. by rewrite <- app_assoc.
Qed.

Lemma catalog_limit_empty : catalog_limit "" = 10000.
Proof. reflexivity. Qed.

Lemma catalog_limit_given nStr :
  nStr ≠ "" → catalog_limit nStr = fst (strconv.Atoi nStr).
Proof.
  intros Hne. unfold catalog_limit. apply String.eqb_neq in Hne.
  by rewrite Hne.
Qed.

(** A syntax error of [strconv.Atoi] comes with the value 0. *)
Lemma Atoi_syntax_zero s v e :
  strconv.Atoi s = (v, Some e) → strconv.Err e = strconv.ErrSyntax → v = 0.
Proof.
  unfold strconv.Atoi, strconv.ParseInt. destruct s as [|c rest].
  { by intros [= <- <-]. }
  cbn zeta.
  destruct (strconv.ParseUint _) as [un [[]|]].
  - by intros [= <- <-].
  - destruct (_ && _); [by intros [= <- <-]|].
    destruct (_ && _); by intros [= <- <-].
  - destruct (_ && _); [by intros [= <- <-]|].
    destruct (_ && _); by intros [= <- <-].
Qed.

Section handleCatalog_facts.
Context {W : Type}.
Context (Marshal_Catalog : Catalog → list byte).
Context (rangeOrder : list string → list string).

Lemma handleCatalog_method_unknown req (s : state W) :
  String.eqb (http.Method req) "GET" = false →
  call (handleCatalog Marshal_Catalog rangeOrder req) s
  = (Returned (Some errMethodUnknown), s).
Proof.
  intros Hm. unfold call, handleCatalog. cbn zeta. rewrite Hm. reflexivity.
Qed.

Lemma handleCatalog_GET req (m : Manifests W) w :
  http.Method req = "GET" →
  call (handleCatalog Marshal_Catalog rangeOrder req) (m, w)
  = (Returned None,
     (m, write_json
           (Marshal_Catalog
              {| Repos := take (Z.to_nat (catalog_limit
                                            (url.Get (http.Query req) "n")))
                            (rangeOrder (keys (manifests m))) |}) w)).
Proof.
  intros Hm. unfold call, handleCatalog. cbn zeta. rewrite Hm. eval_eqb.
  steps. rewrite catalog_loop_take. rewrite Z.sub_0_r. reflexivity.
Qed.
End handleCatalog_facts.

(** ** Digest and headers of a served manifest *)

Lemma Header_WriteHeader code w :
  http.Header (http.WriteHeader code w) = http.Header w.
Proof. unfold http.WriteHeader. by destruct (http.Code w). Qed.

Lemma Body_WriteHeader code w :
  http.Body (http.WriteHeader code w) = http.Body w.
Proof. unfold http.WriteHeader. by destruct (http.Code w). Qed.

Lemma served_head_headers ma w :
  http.Header (served_head ma w) !! "Docker-Content-Digest"
  = Some (digest_of (Blob ma))
  ∧ http.Header (served_head ma w) !! "Content-Type" = Some (ContentType ma)
  ∧ http.Header (served_head ma w) !! "Content-Length"
    = Some (fmt.Sprint (len (Blob ma)))
  ∧ http.Body (served_head ma w) = http.Body w.
Proof.
  unfold served_head. rewrite Header_WriteHeader, Body_WriteHeader. simpl.
  repeat split.
  - rewrite lookup_insert_ne by done. rewrite lookup_insert_ne by done.
    apply lookup_insert_eq.
  - rewrite lookup_insert_ne by done. apply lookup_insert_eq.
  - apply lookup_insert_eq.
Qed.

Lemma served_get_headers ma w :
  http.Header (served_get ma w) = http.Header (served_head ma w)
  ∧ http.Body (served_get ma w) = http.Body w ++ Blob ma.
Proof.
  unfold served_get, http.Write. simpl.
  rewrite Header_WriteHeader, Body_WriteHeader.
  by destruct (served_head_headers ma w) as (_ & _ & _ & ->).
Qed.

(** Claim C7: a GET or HEAD that succeeds serves a manifest it read from the
    store, and its Docker-Content-Digest header is "sha256:" followed by the
    hexadecimal SHA-256 of that manifest's blob, computed from the blob in
    the request itself (GET writes the same bytes as the body); Content-Type
    and Content-Length are taken from the same record. A further GET or
    HEAD of the path, while the manifest is stored under the reference,
    succeeds without changing the store and carries the same digest. *)
Theorem digest_recomputed_from_served_blob {W} (P : Preparer W) req m w m' w' :
  call (handle P req) (m, w) = (Returned None, (m', w')) →
  ∃ repo target ma,
    manifest_parts (http.Path req) = Some (repo, target)
    ∧ (http.Method req = "GET"
       ∧ deref m' (fst (manifests_lookup m repo)) !! target = Some ma
       ∧ http.Body w' = http.Body w ++ Blob ma
       ∨ http.Method req = "HEAD"
         ∧ manifest_lookup m' repo target = Some ma
         ∧ http.Body w' = http.Body w)
    ∧ http.Header w' !! "Docker-Content-Digest"
      = Some ("sha256:" +:+ hex.EncodeToString (sha256.Sum256 (Blob ma)))
    ∧ http.Header w' !! "Content-Type" = Some (ContentType ma)
    ∧ http.Header w' !! "Content-Length" = Some (fmt.Sprint (len (Blob ma)))
    ∧ ∀ (P2 : Preparer W) req2 w2,
        http.Path req2 = http.Path req →
        serves EManifest (http.Method req2) = true →
        manifest_lookup m' repo target = Some ma →
        ∃ w2',
          call (handle P2 req2) (m', w2) = (Returned None, (m', w2'))
          ∧ http.Header w2' !! "Docker-Content-Digest"
            = http.Header w' !! "Docker-Content-Digest".
Proof.
  intros Hcall.
  destruct (handle_served P req m w m' w' Hcall)
    as (repo & target & ma & Hparts & Hserved).
  exists repo, target, ma.
  destruct (served_head_headers ma w) as (Hd & Hct & Hcl & Hb).
  destruct (served_get_headers ma w) as (Hgh & Hgb).
  assert (Hw' : http.Header w' = http.Header (served_head ma w)).
  { destruct Hserved as [(_ & _ & ->)|(_ & _ & ->)]; done. }
  split; [done|]. split.
  { destruct Hserved as [(Hm & Hma & ->)|(Hm & Hma & ->)]; [left|right]; done. }
  rewrite Hw'. repeat split; try done.
  intros P2 req2 w2 Hpath Hmeth Hstored.
  rewrite <- Hpath in Hparts.
  destruct (handle_hit P2 req2 repo target m' w2 ma Hparts Hstored)
    as [Hget Hhead].
  simpl in Hmeth. apply orb_true_iff in Hmeth as [Hm2|Hm2];
    apply String.eqb_eq in Hm2.
  - exists (served_get ma w2). split; [by apply Hget|].
    destruct (served_get_headers ma w2) as (-> & _).
    destruct (served_head_headers ma w2) as (-> & _). by rewrite Hd.
  - exists (served_head ma w2). split; [by apply Hhead|].
    destruct (served_head_headers ma w2) as (-> & _). by rewrite Hd.
Qed.

Lemma digest_recomputed_from_served_blob_witness :
  ∃ ma,
    manifest_lookup (snd (populate "ns" "chart" "1.0.0" empty_store))
      "ns/chart" "1.0.0" = Some ma
    ∧ http.Header (served_head (chart_manifest "ns/chart" "1.0.0")
                     http.NewRecorder) !! "Docker-Content-Digest"
      = Some ("sha256:" +:+ hex.EncodeToString (sha256.Sum256 (Blob ma))).
Proof.
  destruct (digest_recomputed_from_served_blob populate
              (request "HEAD" "/v2/ns/chart/manifests/1.0.0" [])
              empty_store http.NewRecorder
              (snd (populate "ns" "chart" "1.0.0" empty_store))
              (served_head (chart_manifest "ns/chart" "1.0.0")
                 http.NewRecorder))
    as (repo & target & ma & Hparts & Hserved & Hd & _).
  { vm_compute. reflexivity. }
  exists ma. split; [|exact Hd].
  destruct Hserved as [(Hm & _)|(_ & Hma & _)]; [discriminate Hm|].
  assert (Hrt : (repo, target) = ("ns/chart", "1.0.0")).
  { vm_compute in Hparts. congruence. }
  injection Hrt as -> ->. exact Hma.
Defined.

(** ** Tag listing *)

(** Claim C8: on a GET tags request that reaches the listing (the Preparer
    succeeded and the repository is bound afterwards), the tag sequence that
    the handler paginates consists exactly of the keys of the repository's
    reference table that do not contain "sha256:", each once, in ascending
    byte-wise order, whatever the order in which the map was ranged over;
    the response is the [last] and [n] steps applied to that sequence. *)
Theorem tag_sequence_sorted_without_digests {W} (P : Preparer W)
  (Marshal_listTags : listTags → list byte) (Quote : string → string)
  (rangeOrder : list string → list string)
  req repo m w namespace name m1 c :
  (∀ l, rangeOrder l ≡ₚ l) →
  tags_repo (http.Path req) = Some repo →
  http.Method req = "GET" →
  index (strings.Split repo "/") 0 = Some namespace →
  index (strings.Split repo "/") 1 = Some name →
  P namespace name "" m = (None, m1) →
  manifests m1 !! repo = Some c →
  ∃ tags,
    (∀ key, key ∈ tags
            ↔ is_Some (deref m1 c !! key)
              ∧ strings.Contains key "sha256:" = false)
    ∧ NoDup tags
    ∧ StronglySorted String.le tags
    ∧ call (handleTags P Marshal_listTags Quote rangeOrder req) (m, w)
      = match offset_last (url.Get (http.Query req) "last") tags with
        | None => (Panicked slice_panic, (m1, w))
        | Some tags =>
            match limit_n (url.Get (http.Query req) "n") tags with
            | inl err => (Returned (Some (errBadRequest Quote err)), (m1, w))
            | inr None => (Panicked slice_panic, (m1, w))
            | inr (Some tags) =>
                (Returned None,
                 (m1, write_json
                        (Marshal_listTags {| Name := repo; Tags := tags |})
                        w))
            end
        end.
Proof.
  intros Hperm Hparts Hm H0 H1 HP Hrepo.
  exists (sort.Strings (collect_tags (rangeOrder (keys (deref m1 c))))).
  split; [intros key; by apply tag_list_elem_of|].
  split; [by apply tag_list_NoDup|].
  split; [by apply tag_list_sorted|].
  by apply (handleTags_listing P Marshal_listTags Quote rangeOrder
              req repo m w namespace name m1 c).
Qed.

Lemma tag_sequence_sorted_without_digests_witness :
  ∃ tags,
    (∀ key, key ∈ tags
            ↔ is_Some (chart_table !! key)
              ∧ strings.Contains key "sha256:" = false)
    ∧ NoDup tags
    ∧ StronglySorted String.le tags
    ∧ call (handleTags idle plain_Marshal_listTags plain_Quote reverse
              (request "GET" "/v2/ns/chart/tags/list" []))
        (chart_store, http.NewRecorder)
      = (Returned None,
         (snd (idle "ns" "chart" "" chart_store),
          write_json
            (plain_Marshal_listTags {| Name := "ns/chart"; Tags := tags |})
            http.NewRecorder)).
Proof.
  apply (tag_sequence_sorted_without_digests idle plain_Marshal_listTags
           plain_Quote reverse (request "GET" "/v2/ns/chart/tags/list" [])
           "ns/chart" chart_store http.NewRecorder "ns" "chart"
           (snd (idle "ns" "chart" "" chart_store)) (Some 1%positive)).
  - intros l. apply reverse_Permutation.
  - vm_compute. reflexivity.
  - reflexivity.
  - vm_compute. reflexivity.
  - vm_compute. reflexivity.
  - reflexivity.
  - vm_compute. reflexivity.
Defined.

(** Claim C10: on a GET tags request that reaches the limit step (the
    Preparer succeeded and the repository is bound afterwards) with an [n]
    that parses to a negative integer, the cursor step leaves some sequence
    [tags], [n] is below its length, the slice [tags[:n]] is out of range,
    and the handler panics: it neither returns nor writes a response. *)
Theorem negative_limit_panics {W} (P : Preparer W)
  (Marshal_listTags : listTags → list byte) (Quote : string → string)
  (rangeOrder : list string → list string)
  req repo m w namespace name m1 c n :
  tags_repo (http.Path req) = Some repo →
  http.Method req = "GET" →
  index (strings.Split repo "/") 0 = Some namespace →
  index (strings.Split repo "/") 1 = Some name →
  P namespace name "" m = (None, m1) →
  manifests m1 !! repo = Some c →
  strconv.Atoi (url.Get (http.Query req) "n") = (n, None) →
  n < 0 →
  ∃ tags,
    offset_last (url.Get (http.Query req) "last")
      (sort.Strings (collect_tags (rangeOrder (keys (deref m1 c)))))
    = Some tags
    ∧ n < len tags
    ∧ slice_to tags n = None
    ∧ call (handleTags P Marshal_listTags Quote rangeOrder req) (m, w)
      = (Panicked slice_panic, (m1, w)).
Proof.
  intros Hparts Hm H0 H1 HP Hrepo Hn Hneg.
  destruct (offset_last_suffix (url.Get (http.Query req) "last")
              (sort.Strings (collect_tags (rangeOrder (keys (deref m1 c))))))
    as (tags & Hlast & _).
  exists tags. split; [done|].
  pose proof (len_nonneg tags). split; [lia|]. split.
  { unfold slice_to, slice.
    destruct (n <? 0) eqn:E; [done|apply Z.ltb_ge in E; lia]. }
  rewrite (handleTags_listing P Marshal_listTags Quote rangeOrder
             req repo m w namespace name m1 c) by done.
  rewrite Hlast. by rewrite (limit_n_negative _ n tags).
Qed.

Lemma negative_limit_panics_witness :
  ∃ tags,
    offset_last "b" (sort.Strings (collect_tags (keys chart_table))) = Some tags
    ∧ -5 < len tags
    ∧ slice_to tags (-5) = None
    ∧ call (handleTags idle plain_Marshal_listTags plain_Quote id
              (request "GET" "/v2/ns/chart/tags/list"
                 [("last", "b"); ("n", "-5")]))
        (chart_store, http.NewRecorder)
      = (Panicked slice_panic,
         (snd (idle "ns" "chart" "" chart_store), http.NewRecorder)).
Proof.
  apply (negative_limit_panics idle plain_Marshal_listTags plain_Quote id
           (request "GET" "/v2/ns/chart/tags/list"
              [("last", "b"); ("n", "-5")])
           "ns/chart" chart_store http.NewRecorder "ns" "chart"
           (snd (idle "ns" "chart" "" chart_store)) (Some 1%positive) (-5)).
  - vm_compute. reflexivity.
  - reflexivity.
  - vm_compute. reflexivity.
  - vm_compute. reflexivity.
  - reflexivity.
  - vm_compute. reflexivity.
  - vm_compute. reflexivity.
  - lia.
Defined.

(** ** Unsupported methods *)

(** Claim C9: a request on a manifest path with a method other than GET and
    HEAD, or on a tags or catalog path with a method other than GET, is
    answered with the 400 METHOD_UNKNOWN error; the handler leaves the store
    and the response writer as they were, whatever the Preparer is, so the
    Preparer was not invoked and no map was changed. *)
Theorem unsupported_method_rejected {W} (P : Preparer W)
  (Marshal_listTags : listTags → list byte)
  (Marshal_Catalog : Catalog → list byte) (Quote : string → string)
  (rangeOrder : list string → list string) e req (s : state W) :
  on_path e req = Some true →
  serves e (http.Method req) = false →
  call (handler P Marshal_listTags Marshal_Catalog Quote rangeOrder e req) s
  = (Returned (Some {| Status := 400; Code := "METHOD_UNKNOWN";
                       Message := "We don't understand your method + url" |}),
     s).
Proof.
  intros Hpath Hm. destruct e; simpl in *.
  - destruct (is_kind_true _ _ Hpath) as (repo & target & Hparts & _).
    by apply (handle_method_unknown P req repo target).
  - destruct (is_kind_true _ _ Hpath) as (repo & target & _ & Hparts).
    by apply (handleTags_method_unknown P _ _ _ req repo).
  - by apply handleCatalog_method_unknown.
Qed.

Lemma unsupported_method_rejected_witness :
  call (handler populate plain_Marshal_listTags plain_Marshal_Catalog
          plain_Quote id ETags (request "DELETE" "/v2/ns/chart/tags/list" []))
    (chart_store, http.NewRecorder)
  = (Returned (Some {| Status := 400; Code := "METHOD_UNKNOWN";
                       Message := "We don't understand your method + url" |}),
     (chart_store, http.NewRecorder)).
Proof.
  apply (unsupported_method_rejected populate plain_Marshal_listTags
           plain_Marshal_Catalog plain_Quote id ETags
           (request "DELETE" "/v2/ns/chart/tags/list" [])).
  - vm_compute. reflexivity.
  - reflexivity.
Defined.

(** ** The catalog *)

(** Claim C4, as the code has it: a GET catalog request is answered with
    status 200 and the first [n_eff] repository names the range loop visits,
    each stored and none twice, so with at most [n_eff] names and with all of
    them when no more than [n_eff] are stored. [n_eff] is 10000 when [n] is
    absent or empty; otherwise it is the value [strconv.Atoi] returns for
    [n]: the parsed integer when [n] parses, and when it does not parse the
    value that comes with the dropped error, 0 for a syntax error. No parse
    failure is reported as an error. *)
Theorem catalog_lists_up_to_limit {W}
  (Marshal_Catalog : Catalog → list byte)
  (rangeOrder : list string → list string) req (m : Manifests W) w :
  (∀ l, rangeOrder l ≡ₚ l) →
  http.Method req = "GET" →
  ∃ n_eff repos,
    call (handleCatalog Marshal_Catalog rangeOrder req) (m, w)
    = (Returned None,
       (m, write_json (Marshal_Catalog {| Repos := repos |}) w))
    ∧ len repos = Z.min (Z.max n_eff 0) (len (keys (manifests m)))
    ∧ NoDup repos
    ∧ (∀ r, r ∈ repos → is_Some (manifests m !! r))
    ∧ (len (keys (manifests m)) ≤ n_eff → repos ≡ₚ keys (manifests m))
    ∧ (url.Get (http.Query req) "n" = "" → n_eff = 10000)
    ∧ (∀ v, strconv.Atoi (url.Get (http.Query req) "n") = (v, None) →
            n_eff = v)
    ∧ (∀ v err,
         url.Get (http.Query req) "n" ≠ "" →
         strconv.Atoi (url.Get (http.Query req) "n") = (v, Some err) →
         n_eff = v ∧ (strconv.Err err = strconv.ErrSyntax → n_eff = 0)).
Proof.
  intros Hperm Hm.
  set (nStr := url.Get (http.Query req) "n").
  exists (catalog_limit nStr),
    (take (Z.to_nat (catalog_limit nStr)) (rangeOrder (keys (manifests m)))).
  pose proof (Hperm (keys (manifests m))) as Hp.
  assert (Hlen : length (rangeOrder (keys (manifests m)))
                 = length (keys (manifests m))) by (by rewrite Hp).
  split; [by apply handleCatalog_GET|].
  split; [unfold len; rewrite length_take, Hlen; lia|].
  split.
  { eapply sublist_NoDup; [|apply sublist_take].
    rewrite Hp. apply NoDup_keys. }
  split.
  { intros r Hr. apply elem_of_keys. rewrite <- Hp.
    eapply elem_of_sublist; [exact Hr|apply sublist_take]. }
  split.
  { intros Hall. rewrite take_ge; [done|]. unfold len in Hall. lia. }
  split; [by intros ->|].
  split.
  { intros v Hv. rewrite catalog_limit_given; [by rewrite Hv|].
    by apply (Atoi_parsed_nonempty _ v). }
  intros v err Hne Hv. rewrite catalog_limit_given by done. rewrite Hv.
  split; [done|]. intros Hs. by apply (Atoi_syntax_zero nStr v err).
Qed.

Lemma catalog_lists_up_to_limit_witness :
  ∃ n_eff repos,
    call (handleCatalog plain_Marshal_Catalog reverse
            (request "GET" "/v2/_catalog" [("n", "2")]))
      (three_repos, http.NewRecorder)
    = (Returned None,
       (three_repos,
        write_json (plain_Marshal_Catalog {| Repos := repos |})
          http.NewRecorder))
    ∧ len repos = Z.min (Z.max n_eff 0) (len (keys (manifests three_repos)))
    ∧ NoDup repos
    ∧ (∀ r, r ∈ repos → is_Some (manifests three_repos !! r))
    ∧ (len (keys (manifests three_repos)) ≤ n_eff
       → repos ≡ₚ keys (manifests three_repos))
    ∧ ("2" = "" → n_eff = 10000)
    ∧ (∀ v, strconv.Atoi "2" = (v, None) → n_eff = v)
    ∧ (∀ v err,
         "2" ≠ "" → strconv.Atoi "2" = (v, Some err) →
         n_eff = v ∧ (strconv.Err err = strconv.ErrSyntax → n_eff = 0)).
Proof.
  apply (catalog_lists_up_to_limit plain_Marshal_Catalog reverse
           (request "GET" "/v2/_catalog" [("n", "2")]) three_repos
           http.NewRecorder).
  - intros l. apply reverse_Permutation.
  - reflexivity.
Defined.

(** Claim C4, as stated, fails: with [n=abc], which does not parse, the
    limit is 0 and not the 10000 of the specification, and the response
    lists no repository although three, fewer than 10000, are stored. *)
Lemma catalog_unparsable_limit_is_zero :
  snd (strconv.Atoi "abc")
  = Some {| strconv.Func := "Atoi"; strconv.Num := "abc";
            strconv.Err := strconv.ErrSyntax |}
  ∧ spec_catalog_limit "abc" = 10000
  ∧ catalog_limit "abc" = 0
  ∧ len (keys (manifests three_repos)) = 3
  ∧ call (handleCatalog plain_Marshal_Catalog id
            (request "GET" "/v2/_catalog" [("n", "abc")]))
      (three_repos, http.NewRecorder)
    = (Returned None,
       (three_repos,
        write_json (plain_Marshal_Catalog {| Repos := [] |})
          http.NewRecorder))
  ∧ ¬ (∃ repos,
         repos ≡ₚ keys (manifests three_repos)
         ∧ call (handleCatalog plain_Marshal_Catalog id
                   (request "GET" "/v2/_catalog" [("n", "abc")]))
             (three_repos, http.NewRecorder)
           = (Returned None,
              (three_repos,
               write_json (plain_Marshal_Catalog {| Repos := repos |})
                 http.NewRecorder))).
Proof.
  repeat split; try (vm_compute; reflexivity).
  intros (repos & Hperm & Hcall).
  apply Permutation_length in Hperm.
  destruct repos as [|r repos]; [discriminate Hperm|].
  apply (f_equal (λ r, http.Body (snd (snd r)))) in Hcall.
  vm_compute in Hcall. discriminate Hcall.
Qed.

(** ** Where GET and HEAD agree *)

Lemma manifest_lookup_bound {W} (m : Manifests W) repo target c :
  manifests m !! repo = Some c →
  manifest_lookup m repo target = deref m c !! target.
Proof. unfold manifest_lookup, manifests_lookup. by intros ->. Qed.

Lemma served_get_head ma w :
  http.Header (served_get ma w) = http.Header (served_head ma w)
  ∧ http.Code (served_get ma w) = http.Code (served_head ma w)
  ∧ http.Body (served_get ma w) = http.Body (served_head ma w) ++ Blob ma.
Proof.
  unfold served_get, http.Write, served_head, http.WriteHeader. simpl.
  destruct (http.Code w) eqn:E; simpl; rewrite ?E; simpl; repeat split;
    try reflexivity; by rewrite E.
Qed.

(** When the repository is bound in the store and the Preparer keeps the
    binding, the two branches return the same error or nil, leave the same
    store and write the same headers and status; GET alone writes a body. *)
Lemma handle_GET_HEAD_agree {W} (P : Preparer W) get head repo target m w c :
  http.Method get = "GET" →
  http.Method head = "HEAD" →
  http.Path get = http.Path head →
  manifest_parts (http.Path get) = Some (repo, target) →
  manifests m !! repo = Some c →
  (∀ namespace name m0 e m1,
     manifests m0 !! repo = Some c →
     P namespace name target m0 = (e, m1) →
     manifests m1 !! repo = Some c) →
  ∃ o m' wg wh,
    call (handle P get) (m, w) = (o, (m', wg))
    ∧ call (handle P head) (m, w) = (o, (m', wh))
    ∧ http.Header wg = http.Header wh
    ∧ http.Code wg = http.Code wh
    ∧ (o = Returned None
       ∧ (∃ ma, http.Body wg = http.Body wh ++ Blob ma)
       ∨ wg = wh).
Proof.
  intros Hg Hh Hpath Hparts Hbound Hkeep.
  assert (Hparts' := Hparts). rewrite Hpath in Hparts'.
  destruct (deref m c !! target) as [ma|] eqn:Hma.
  { assert (Hl : manifest_lookup m repo target = Some ma)
      by (by rewrite (manifest_lookup_bound m repo target c)).
    destruct (handle_hit P get repo target m w ma Hparts Hl) as [Hget _].
    destruct (handle_hit P head repo target m w ma Hparts' Hl) as [_ Hhead].
    rewrite (Hget Hg), (Hhead Hh).
    destruct (served_get_head ma w) as (? & ? & ?).
    exists (Returned None), m, (served_get ma w), (served_head ma w).
    repeat split; try done. left. split; [done|]. by exists ma. }
  unfold call, handle. cbn zeta. rewrite <- Hpath.
  enter_handle Hparts. rewrite Hg, Hh. eval_eqb. steps.
  unfold manifests_lookup. rewrite Hbound. steps.
  rewrite (manifest_lookup_bound m repo target c Hbound), Hma.
  destruct (index (strings.Split repo "/") 0) as [namespace|]; steps;
    [|by exists (Panicked index_panic), m, w, w; repeat split; try right].
  destruct (index (strings.Split repo "/") 1) as [name|]; steps;
    [|by exists (Panicked index_panic), m, w, w; repeat split; try right].
  destruct (P namespace name target m) as [[e|] m1] eqn:HP; steps;
    [by exists (Returned (Some e)), m1, w, w; repeat split; try right|].
  pose proof (Hkeep _ _ _ _ _ Hbound HP) as Hbound1.
  rewrite (manifest_lookup_bound m1 repo target c Hbound1).
  destruct (deref m1 c !! target) as [ma|]; steps.
  - destruct (served_get_head ma w) as (? & ? & ?).
    exists (Returned None), m1, (served_get ma w), (served_head ma w).
    repeat split; try done. left. split; [done|]. by exists ma.
  - by exists (Returned (Some errNotFound)), m1, w, w; repeat split; try right.
Qed.

(** ** Where the handlers part from the specification *)

(** Claim C1, at the failing input: GET of a manifest in a repository that
    is not in the store, with the two-component name [ns/chart] and a
    Preparer that succeeds and stores the reference. The handler invokes the
    Preparer twice and answers 404 NOT FOUND with nothing written, although
    the manifest is in the store when it returns: the GET branch still looks
    the reference up in the nil map it read before the first invocation. *)
Theorem get_unpopulated_repository_not_found :
  manifests empty_store !! "ns/chart" = None
  ∧ manifest_parts "/v2/ns/chart/manifests/1.0.0" = Some ("ns/chart", "1.0.0")
  ∧ len (strings.Split "ns/chart" "/") = 2
  ∧ call (handle populate (request "GET" "/v2/ns/chart/manifests/1.0.0" []))
      (empty_store, http.NewRecorder)
    = (Returned (Some {| Status := 404; Code := "NOT FOUND";
                         Message := "Chart prepare error" |}),
       (snd (populate "ns" "chart" "1.0.0"
               (snd (populate "ns" "chart" "1.0.0" empty_store))),
        http.NewRecorder))
  ∧ fst (populate "ns" "chart" "1.0.0" empty_store) = None
  ∧ manifest_lookup (snd (populate "ns" "chart" "1.0.0" empty_store))
      "ns/chart" "1.0.0"
    = Some (chart_manifest "ns/chart" "1.0.0")
  ∧ registry (snd (populate "ns" "chart" "1.0.0"
                     (snd (populate "ns" "chart" "1.0.0" empty_store))))
    = 2%nat.
Proof. repeat split; vm_compute; reflexivity. Qed.

(** Claim C2, at the failing input: on the same path, the same empty store
    and the same Preparer, HEAD answers 200 with the digest, content type
    and length of the stored manifest after one Preparer invocation, and GET
    answers 404 NOT FOUND after two. *)
Theorem get_and_head_differ_on_unpopulated_repository :
  call (handle populate (request "HEAD" "/v2/ns/chart/manifests/1.0.0" []))
    (empty_store, http.NewRecorder)
  = (Returned None,
     (snd (populate "ns" "chart" "1.0.0" empty_store),
      served_head (chart_manifest "ns/chart" "1.0.0") http.NewRecorder))
  ∧ fst (call (handle populate
                 (request "GET" "/v2/ns/chart/manifests/1.0.0" []))
           (empty_store, http.NewRecorder))
    = Returned (Some errNotFound)
  ∧ registry
      (fst (snd (call (handle populate
                         (request "HEAD" "/v2/ns/chart/manifests/1.0.0" []))
                   (empty_store, http.NewRecorder)))) = 1%nat
  ∧ registry
      (fst (snd (call (handle populate
                         (request "GET" "/v2/ns/chart/manifests/1.0.0" []))
                   (empty_store, http.NewRecorder)))) = 2%nat.
Proof. repeat split; vm_compute; reflexivity. Qed.

(** Claim C3, at the failing input: a GET tags request whose repository
    name [foo] has one component and is not in the store. [handleTags]
    indexes [hostnameParts[1]] with no test of the length, and panics; the
    Preparer is not invoked, and no 400 INVALID PARAMS is returned. *)
Theorem tags_one_component_name_panics :
  isTags (request "GET" "/v2/foo/tags/list" []) = Some true
  ∧ tags_repo "/v2/foo/tags/list" = Some "foo"
  ∧ len (strings.Split "foo" "/") = 1
  ∧ manifests empty_store !! "foo" = None
  ∧ call (handleTags populate plain_Marshal_listTags plain_Quote id
            (request "GET" "/v2/foo/tags/list" []))
      (empty_store, http.NewRecorder)
    = (Panicked "index out of range", (empty_store, http.NewRecorder)).
Proof. repeat split; vm_compute; reflexivity. Qed.

(** Claim C5, at the failing input: tags [a] to [d] are stored and [last]
    is [z], above all of them. The loop finds no tag to cut at and leaves
    the sequence whole: the response lists the four tags, not none. *)
Theorem last_above_every_tag_lists_all :
  Forall (λ t, String.ltb "z" t = false)
    (sort.Strings (collect_tags (keys chart_table)))
  ∧ offset_last "z" ["a"; "b"; "c"; "d"] = Some ["a"; "b"; "c"; "d"]
  ∧ call (handleTags idle plain_Marshal_listTags plain_Quote id
            (request "GET" "/v2/ns/chart/tags/list" [("last", "z")]))
      (chart_store, http.NewRecorder)
    = (Returned None,
       (snd (idle "ns" "chart" "" chart_store),
        write_json
          (plain_Marshal_listTags
             {| Name := "ns/chart"; Tags := ["a"; "b"; "c"; "d"] |})
          http.NewRecorder)).
Proof.
  split; [|split; vm_compute; reflexivity].
  vm_compute. repeat constructor.
Qed.

(** Claim C6, at the failing input: tags [a] to [d] are stored and [n] is
    [-1], which parses and is below the length 4. The slice [tags[:-1]] is
    out of range and the handler panics: no sequence, capped or not, is
    returned. *)
Theorem limit_minus_one_panics :
  strconv.Atoi "-1" = (-1, None)
  ∧ limit_n "-1" ["a"; "b"; "c"; "d"] = inr None
  ∧ call (handleTags idle plain_Marshal_listTags plain_Quote id
            (request "GET" "/v2/ns/chart/tags/list" [("n", "-1")]))
      (chart_store, http.NewRecorder)
    = (Panicked "slice bounds out of range",
       (snd (idle "ns" "chart" "" chart_store), http.NewRecorder)).
Proof. repeat split; vm_compute; reflexivity. Qed.

(** ** The examples of the specification *)

Lemma isCatalog_total req : is_Some (isCatalog req).
Proof.
  unfold isCatalog.
  destruct (slice_is_Some (strings.Split (http.Path req) "/") 1
              (len (strings.Split (http.Path req) "/"))) as [elems He].
  { pose proof (Split_len "/" (http.Path req)). lia. }
  { lia. }
  unfold slice_from. rewrite He. simpl.
  destruct (len elems <? 2) eqn:E; [eauto|]. apply Z.ltb_ge in E.
  destruct (index_is_Some elems (len elems - 1)) as [e Hi]; [lia|].
  rewrite Hi. simpl. eauto.
Qed.

Example classify_paths :
  isManifest (request "GET" "/v2/ns/chart/manifests/1.0.0" []) = Some true
  ∧ isTags (request "GET" "/v2/ns/chart/tags/list" []) = Some true
  ∧ isCatalog (request "GET" "/v2/_catalog" []) = Some true
  ∧ isManifest (request "GET" "/v2/_catalog" []) = Some false
  ∧ isTags (request "GET" "/v2/ns/chart/manifests/1.0.0" []) = Some false
  ∧ isCatalog (request "GET" "/" []) = Some false.
Proof. repeat split; vm_compute; reflexivity. Qed.

Example served_digest :
  digest_of (Blob (chart_manifest "ns/chart" "1.0.0"))
  = "sha256:786a9e45471cf00b20dbb6678faeb60568dd0612c198b8982d33e3d48b63c1ec".
Proof. vm_compute. reflexivity. Qed.

(** Tags [a] to [d] and a digest key: the listing, [last=b], [n=2], and
    [last=b] with [n=1]. *)
Example tag_pagination :
  let listed query tags :=
    call (handleTags idle plain_Marshal_listTags plain_Quote reverse
            (request "GET" "/v2/ns/chart/tags/list" query))
      (chart_store, http.NewRecorder)
    = (Returned None,
       (snd (idle "ns" "chart" "" chart_store),
        write_json
          (plain_Marshal_listTags {| Name := "ns/chart"; Tags := tags |})
          http.NewRecorder)) in
  listed [] ["a"; "b"; "c"; "d"]
  ∧ listed [("last", "b")] ["c"; "d"]
  ∧ listed [("n", "2")] ["a"; "b"]
  ∧ listed [("last", "b"); ("n", "1")] ["c"].
Proof. repeat split; vm_compute; reflexivity. Qed.

(** Repositories [r1], [r2], [r3]: [n=2] lists two of them, no [n] all. *)
Example catalog_cap :
  let listed order query :=
    catalog_loop
      (catalog_limit
         (url.Get (http.Query (request "GET" "/v2/_catalog" query)) "n"))
      (order (keys (manifests three_repos))) 0 [] in
  length (listed id [("n", "2")]) = 2%nat
  ∧ length (listed reverse [("n", "2")]) = 2%nat
  ∧ sort.Strings (listed id []) = ["r1"; "r2"; "r3"].
Proof. repeat split; vm_compute; reflexivity. Qed.

(** * Further properties of the handlers *)

(** ** The path classifier and the path a handler takes apart *)

(** Property X1: the three classifiers never panic: on every request each
    of them returns a boolean. The slice [elems[1:]] is always in range
    because [strings.Split] returns at least one element, and the index is
    only taken behind the length test. *)
Theorem classifier_never_panics req :
  ∃ manifest tags catalog,
    isManifest req = Some manifest
    ∧ isTags req = Some tags
    ∧ isCatalog req = Some catalog.
Proof.
  destruct (is_kind_total "manifests" req) as [b1 H1].
  destruct (is_kind_total "tags" req) as [b2 H2].
  destruct (isCatalog_total req) as [b3 H3].
  by exists b1, b2, b3.
Qed.

(** Property X2: a path that [isManifest] accepts is rejected by [isTags],
    and [handle] takes it apart without a panic: it has a last segment, the
    reference, and a repository name. *)
Theorem manifest_path_is_no_tags_path req :
  isManifest req = Some true →
  isTags req = Some false
  ∧ ∃ repo target, manifest_parts (http.Path req) = Some (repo, target).
Proof.
  intros H. split.
  - revert H. unfold isManifest, isTags, is_kind.
    destruct (slice_from _ 1) as [elems|]; simpl; [|done].
    destruct (len elems <? 4); [done|].
    destruct (index elems _) as [e|]; simpl; [|done].
    intros [= He]. apply String.eqb_eq in He as ->. reflexivity.
  - destruct (is_kind_true _ _ H) as (repo & target & Hp & _). eauto.
Qed.

Lemma manifest_path_is_no_tags_path_witness :
  isTags (request "GET" "/v2/ns/chart/manifests/1.0.0" []) = Some false
  ∧ ∃ repo target,
      manifest_parts "/v2/ns/chart/manifests/1.0.0" = Some (repo, target).
Proof.
  apply (manifest_path_is_no_tags_path
           (request "GET" "/v2/ns/chart/manifests/1.0.0" [])).
  vm_compute. reflexivity.
Defined.

(** Property X3: [handle] and [handleTags] take the path apart before they
    look at the method. On a path with fewer than three segments after the
    leading one, which neither [isManifest] nor [isTags] accepts, both
    panic, with the store and the response untouched. *)
Theorem short_path_panics {W} (P : Preparer W)
  (Marshal_listTags : listTags → list byte) (Quote : string → string)
  (rangeOrder : list string → list string) req (s : state W) :
  len (strings.Split (http.Path req) "/") < 4 →
  (∃ msg, call (handle P req) s = (Panicked msg, s))
  ∧ call (handleTags P Marshal_listTags Quote rangeOrder req) s
    = (Panicked slice_panic, s)
  ∧ isManifest req = Some false
  ∧ isTags req = Some false.
Proof.
  intros Hlen.
  destruct (slice_is_Some (strings.Split (http.Path req) "/") 1
              (len (strings.Split (http.Path req) "/"))) as [elem He].
  { pose proof (Split_len "/" (http.Path req)). lia. }
  { lia. }
  fold (slice_from (strings.Split (http.Path req) "/") 1) in He.
  destruct (slice_from_len _ _ _ He) as (Hl & _ & _).
  assert (Hsub : slice elem 1 (len elem - 2) = None).
  { unfold slice. destruct (len elem - 2 <? 1) eqn:E; [done|].
    apply Z.ltb_ge in E. lia. }
  assert (Hkind : ∀ word, is_kind word req = Some false).
  { intros word. unfold is_kind. rewrite He. simpl.
    destruct (len elem <? 4) eqn:E; [done|]. apply Z.ltb_ge in E. lia. }
  split; [|split; [|split; apply Hkind]].
  - unfold call, handle. cbn zeta. rewrite He. steps.
    destruct (index elem (len elem - 1)) as [target|]; steps; [|eauto].
    rewrite Hsub. steps. eauto.
  - unfold call, handleTags. cbn zeta. rewrite He. steps.
    rewrite Hsub. steps. reflexivity.
Qed.

Lemma short_path_panics_witness :
  (∃ msg, call (handle populate (request "GET" "/v2/chart" []))
            (empty_store, http.NewRecorder)
          = (Panicked msg, (empty_store, http.NewRecorder)))
  ∧ call (handleTags populate plain_Marshal_listTags plain_Quote id
            (request "GET" "/v2/chart" []))
      (empty_store, http.NewRecorder)
    = (Panicked slice_panic, (empty_store, http.NewRecorder))
  ∧ isManifest (request "GET" "/v2/chart" []) = Some false
  ∧ isTags (request "GET" "/v2/chart" []) = Some false.
Proof.
  apply (short_path_panics populate plain_Marshal_listTags plain_Quote id
           (request "GET" "/v2/chart" [])).
  vm_compute. reflexivity.
Defined.

(** ** Manifests: population, errors and hits *)

(** Property X4: when the repository is not in the store and the Preparer
    fails, GET and HEAD return the Preparer's error as it is; the store is
    the one the Preparer left, nothing is written to the response, and the
    Preparer is not called again. *)
Theorem manifest_preparer_error_is_returned {W} (P : Preparer W)
  req repo target m w namespace name e m1 :
  manifest_parts (http.Path req) = Some (repo, target) →
  serves EManifest (http.Method req) = true →
  manifests m !! repo = None →
  index (strings.Split repo "/") 0 = Some namespace →
  index (strings.Split repo "/") 1 = Some name →
  P namespace name target m = (Some e, m1) →
  call (handle P req) (m, w) = (Returned (Some e), (m1, w)).
Proof.
  intros Hparts Hm Habs H0 H1 HP.
  pose proof (index_1_len _ _ H1) as Hlen. simpl in Hm.
  enter_handle Hparts. unfold http.MethodGet, http.MethodHead.
  destruct (String.eqb (http.Method req) "GET"); simpl in Hm; rewrite ?Hm;
    steps; unfold manifests_lookup; rewrite Habs; steps;
    rewrite Hlen, H0; steps; rewrite H1; steps; rewrite HP; steps;
    reflexivity.
Qed.

Lemma manifest_preparer_error_is_returned_witness :
  call (handle unreachable (request "HEAD" "/v2/ns/chart/manifests/1.0.0" []))
    (empty_store, http.NewRecorder)
  = (Returned (Some errUpstream),
     (snd (unreachable "ns" "chart" "1.0.0" empty_store), http.NewRecorder)).
Proof.
  apply (manifest_preparer_error_is_returned unreachable
           (request "HEAD" "/v2/ns/chart/manifests/1.0.0" [])
           "ns/chart" "1.0.0" empty_store http.NewRecorder "ns" "chart").
  all: vm_compute; reflexivity.
Defined.

(** Property X5: the guard on the number of name components protects only
    the first Preparer call. When a repository with a one-component name is
    in the store and the reference is not in its table, GET and HEAD reach
    the second call, index [hostnameParts[1]] and panic. *)
Theorem bound_one_component_name_miss_panics {W} (P : Preparer W)
  req repo target m w c :
  manifest_parts (http.Path req) = Some (repo, target) →
  serves EManifest (http.Method req) = true →
  manifests m !! repo = Some c →
  deref m c !! target = None →
  len (strings.Split repo "/") < 2 →
  call (handle P req) (m, w) = (Panicked index_panic, (m, w)).
Proof.
  intros Hparts Hm Hbound Hmiss Hlen.
  destruct (index_is_Some (strings.Split repo "/") 0) as [h0 H0].
  { pose proof (Split_len "/" repo). lia. }
  assert (H1 : index (strings.Split repo "/") 1 = None)
    by (apply index_short; lia).
  pose proof (manifest_lookup_bound m repo target c Hbound) as Hl.
  simpl in Hm. enter_handle Hparts. unfold http.MethodGet, http.MethodHead.
  destruct (String.eqb (http.Method req) "GET"); simpl in Hm; rewrite ?Hm;
    steps; unfold manifests_lookup; rewrite ?Hbound; steps;
    rewrite ?Hl, Hmiss, H0; steps; rewrite H1; steps; reflexivity.
Qed.

Lemma bound_one_component_name_miss_panics_witness :
  call (handle populate (request "GET" "/v2/r1/manifests/1.0.0" []))
    (three_repos, http.NewRecorder)
  = (Panicked index_panic, (three_repos, http.NewRecorder)).
Proof.
  apply (bound_one_component_name_miss_panics populate
           (request "GET" "/v2/r1/manifests/1.0.0" [])
           "r1" "1.0.0" three_repos http.NewRecorder (Some 1%positive)).
  all: vm_compute; reflexivity.
Defined.

(** Property X6: HEAD of a manifest in a repository that is not in the
    store, with a two-component name: when the Preparer succeeds and the
    reference is in the store afterwards, HEAD answers with the headers of
    that manifest after this one Preparer call, and writes no body. *)
Theorem head_populates_then_serves {W} (P : Preparer W)
  req repo target m w namespace name m1 ma :
  manifest_parts (http.Path req) = Some (repo, target) →
  http.Method req = "HEAD" →
  manifests m !! repo = None →
  index (strings.Split repo "/") 0 = Some namespace →
  index (strings.Split repo "/") 1 = Some name →
  P namespace name target m = (None, m1) →
  manifest_lookup m1 repo target = Some ma →
  ∃ w',
    call (handle P req) (m, w) = (Returned None, (m1, w'))
    ∧ http.Header w' !! "Docker-Content-Digest" = Some (digest_of (Blob ma))
    ∧ http.Header w' !! "Content-Type" = Some (ContentType ma)
    ∧ http.Header w' !! "Content-Length" = Some (fmt.Sprint (len (Blob ma)))
    ∧ http.Body w' = http.Body w.
Proof.
  intros Hparts Hm Habs H0 H1 HP Hma.
  exists (served_head ma w). split.
  - by apply (handle_HEAD_absent_populated P req repo target m w
                namespace name m1 ma).
  - apply served_head_headers.
Qed.

Lemma head_populates_then_serves_witness :
  ∃ w',
    call (handle populate (request "HEAD" "/v2/ns/chart/manifests/1.0.0" []))
      (empty_store, http.NewRecorder)
    = (Returned None, (snd (populate "ns" "chart" "1.0.0" empty_store), w'))
    ∧ http.Header w' !! "Docker-Content-Digest"
      = Some (digest_of (Blob (chart_manifest "ns/chart" "1.0.0")))
    ∧ http.Header w' !! "Content-Type"
      = Some (ContentType (chart_manifest "ns/chart" "1.0.0"))
    ∧ http.Header w' !! "Content-Length"
      = Some (fmt.Sprint (len (Blob (chart_manifest "ns/chart" "1.0.0"))))
    ∧ http.Body w' = http.Body http.NewRecorder.
Proof.
  apply (head_populates_then_serves populate
           (request "HEAD" "/v2/ns/chart/manifests/1.0.0" [])
           "ns/chart" "1.0.0" empty_store http.NewRecorder "ns" "chart").
  all: vm_compute; reflexivity.
Defined.

(** Property X7: GET of a manifest in a repository that is not in the store
    never answers with a manifest, whatever the Preparer does: the handler
    ends in a panic or returns an error. The map value read before the
    Preparer ran is the nil map, and both lookups go to it. *)
Theorem get_unbound_repository_never_serves {W} (P : Preparer W)
  req repo target m w :
  manifest_parts (http.Path req) = Some (repo, target) →
  http.Method req = "GET" →
  manifests m !! repo = None →
  (∃ msg, fst (call (handle P req) (m, w)) = Panicked msg)
  ∨ (∃ e, fst (call (handle P req) (m, w)) = Returned (Some e)).
Proof.
  intros Hparts Hm Habs.
  pose proof (handle_GET_absent_never_served P req repo target m w
                Hparts Hm Habs) as Hne.
  destruct (fst (call (handle P req) (m, w))) as [[e|]|msg]; eauto.
  done.
Qed.

Lemma get_unbound_repository_never_serves_witness :
  (∃ msg, fst (call (handle populate
                       (request "GET" "/v2/ns/chart/manifests/1.0.0" []))
                 (empty_store, http.NewRecorder)) = Panicked msg)
  ∨ (∃ e, fst (call (handle populate
                       (request "GET" "/v2/ns/chart/manifests/1.0.0" []))
                 (empty_store, http.NewRecorder)) = Returned (Some e)).
Proof.
  apply (get_unbound_repository_never_serves populate
           (request "GET" "/v2/ns/chart/manifests/1.0.0" [])
           "ns/chart" "1.0.0" empty_store http.NewRecorder).
  all: vm_compute; reflexivity.
Defined.

(** Property X8: a GET or HEAD of a manifest that is in the store is
    answered from the store alone: the result is the same for every
    Preparer and the store is unchanged. On a response writer with no
    status yet the status is 200; GET appends the blob to the body, whose
    length the Content-Length header gives, and HEAD appends nothing. *)
Theorem stored_manifest_served_from_store {W} (P : Preparer W)
  req repo target m w ma :
  manifest_parts (http.Path req) = Some (repo, target) →
  serves EManifest (http.Method req) = true →
  manifest_lookup m repo target = Some ma →
  http.Code w = None →
  ∃ w',
    call (handle P req) (m, w) = (Returned None, (m, w'))
    ∧ http.Code w' = Some 200
    ∧ http.Header w' !! "Content-Length" = Some (fmt.Sprint (len (Blob ma)))
    ∧ http.Body w'
      = http.Body w
          ++ (if String.eqb (http.Method req) "GET" then Blob ma else []).
Proof.
  intros Hparts Hm Hma Hcode.
  destruct (handle_hit P req repo target m w ma Hparts Hma) as [Hget Hhead].
  destruct (served_head_headers ma w) as (_ & _ & Hcl & Hb).
  destruct (served_get_head ma w) as (Hh & Hc & Hbg).
  assert (Hc200 : http.Code (served_head ma w) = Some 200).
  { unfold served_head, http.WriteHeader. simpl. by rewrite Hcode. }
  simpl in Hm. destruct (String.eqb (http.Method req) "GET") eqn:Hg.
  - apply String.eqb_eq in Hg. exists (served_get ma w).
    split; [by apply Hget|]. rewrite Hc, Hh, Hbg, Hb. done.
  - simpl in Hm. apply String.eqb_eq in Hm. exists (served_head ma w).
    split; [by apply Hhead|]. rewrite Hb, app_nil_r. done.
Qed.

Lemma stored_manifest_served_from_store_witness :
  ∃ w',
    call (handle unreachable (request "GET" "/v2/ns/chart/manifests/b" []))
      (chart_store, http.NewRecorder)
    = (Returned None, (chart_store, w'))
    ∧ http.Code w' = Some 200
    ∧ http.Header w' !! "Content-Length"
      = Some (fmt.Sprint (len (Blob (chart_manifest "ns/chart" "b"))))
    ∧ http.Body w' = [] ++ Blob (chart_manifest "ns/chart" "b").
Proof.
  apply (stored_manifest_served_from_store unreachable
           (request "GET" "/v2/ns/chart/manifests/b" [])
           "ns/chart" "b" chart_store http.NewRecorder
           (chart_manifest "ns/chart" "b")).
  all: vm_compute; reflexivity.
Defined.

(** Property X9: when the repository is in the store and the Preparer
    keeps its binding, GET and HEAD of the same path return the same error
    or nil, leave the same store and write the same headers and status;
    they differ in the body alone, which only a successful GET writes. *)
Theorem get_and_head_agree_on_bound_repository {W} (P : Preparer W)
  get head repo target m w c :
  http.Method get = "GET" →
  http.Method head = "HEAD" →
  http.Path get = http.Path head →
  manifest_parts (http.Path get) = Some (repo, target) →
  manifests m !! repo = Some c →
  (∀ namespace name m0 e m1,
     manifests m0 !! repo = Some c →
     P namespace name target m0 = (e, m1) →
     manifests m1 !! repo = Some c) →
  ∃ o m' wg wh,
    call (handle P get) (m, w) = (o, (m', wg))
    ∧ call (handle P head) (m, w) = (o, (m', wh))
    ∧ http.Header wg = http.Header wh
    ∧ http.Code wg = http.Code wh
    ∧ (o = Returned None
       ∧ (∃ ma, http.Body wg = http.Body wh ++ Blob ma)
       ∨ wg = wh).
Proof. apply handle_GET_HEAD_agree. Qed.

Lemma get_and_head_agree_on_bound_repository_witness :
  ∃ o m' wg wh,
    call (handle idle (request "GET" "/v2/ns/chart/manifests/e" []))
      (chart_store, http.NewRecorder) = (o, (m', wg))
    ∧ call (handle idle (request "HEAD" "/v2/ns/chart/manifests/e" []))
        (chart_store, http.NewRecorder) = (o, (m', wh))
    ∧ http.Header wg = http.Header wh
    ∧ http.Code wg = http.Code wh
    ∧ (o = Returned None
       ∧ (∃ ma, http.Body wg = http.Body wh ++ Blob ma)
       ∨ wg = wh).
Proof.
  apply (get_and_head_agree_on_bound_repository idle
           (request "GET" "/v2/ns/chart/manifests/e" [])
           (request "HEAD" "/v2/ns/chart/manifests/e" [])
           "ns/chart" "e" chart_store http.NewRecorder (Some 1%positive)).
  1-5: vm_compute; reflexivity.
  intros namespace name m0 e m1 Hb [= _ <-]. exact Hb.
Defined.

(** ** Tags: the Preparer, the cursor and the limit *)

(** Property X10: [handleTags] calls the Preparer before it looks at the
    store. When the Preparer fails its error is returned, whether or not
    the repository and its tags are in the store already. *)
Theorem tags_preparer_error_is_returned {W} (P : Preparer W)
  (Marshal_listTags : listTags → list byte) (Quote : string → string)
  (rangeOrder : list string → list string)
  req repo m w namespace name e m1 :
  tags_repo (http.Path req) = Some repo →
  http.Method req = "GET" →
  index (strings.Split repo "/") 0 = Some namespace →
  index (strings.Split repo "/") 1 = Some name →
  P namespace name "" m = (Some e, m1) →
  call (handleTags P Marshal_listTags Quote rangeOrder req) (m, w)
  = (Returned (Some e), (m1, w)).
Proof. apply handleTags_prepare_error. Qed.

Lemma tags_preparer_error_is_returned_witness :
  call (handleTags unreachable plain_Marshal_listTags plain_Quote id
          (request "GET" "/v2/ns/chart/tags/list" []))
    (chart_store, http.NewRecorder)
  = (Returned (Some errUpstream),
     (snd (unreachable "ns" "chart" "" chart_store), http.NewRecorder)).
Proof.
  apply (tags_preparer_error_is_returned unreachable plain_Marshal_listTags
           plain_Quote id (request "GET" "/v2/ns/chart/tags/list" [])
           "ns/chart" chart_store http.NewRecorder "ns" "chart").
  all: vm_compute; reflexivity.
Defined.

(** Property X11: when the Preparer succeeds and the repository is still
    not in the store, [handleTags] returns 404 NOT FOUND and writes
    nothing. *)
Theorem tags_unbound_repository_not_found {W} (P : Preparer W)
  (Marshal_listTags : listTags → list byte) (Quote : string → string)
  (rangeOrder : list string → list string)
  req repo m w namespace name m1 :
  tags_repo (http.Path req) = Some repo →
  http.Method req = "GET" →
  index (strings.Split repo "/") 0 = Some namespace →
  index (strings.Split repo "/") 1 = Some name →
  P namespace name "" m = (None, m1) →
  manifests m1 !! repo = None →
  call (handleTags P Marshal_listTags Quote rangeOrder req) (m, w)
  = (Returned (Some {| Status := 404; Code := "NOT FOUND";
                       Message := "Chart prepare error" |}),
     (m1, w)).
Proof. apply handleTags_absent. Qed.

Lemma tags_unbound_repository_not_found_witness :
  call (handleTags idle plain_Marshal_listTags plain_Quote id
          (request "GET" "/v2/ns/chart/tags/list" []))
    (empty_store, http.NewRecorder)
  = (Returned (Some {| Status := 404; Code := "NOT FOUND";
                       Message := "Chart prepare error" |}),
     (snd (idle "ns" "chart" "" empty_store), http.NewRecorder)).
Proof.
  apply (tags_unbound_repository_not_found idle plain_Marshal_listTags
           plain_Quote id (request "GET" "/v2/ns/chart/tags/list" [])
           "ns/chart" empty_store http.NewRecorder "ns" "chart").
  all: vm_compute; reflexivity.
Defined.

(** Property X12: on a GET tags request that reaches the limit step with an
    [n] that parses to a number that is not negative, the response lists the
    first [n] tags of the sequence the cursor step left, and all of them
    when there are no more than [n]: the limit caps and never pads. *)
Theorem tags_limit_caps {W} (P : Preparer W)
  (Marshal_listTags : listTags → list byte) (Quote : string → string)
  (rangeOrder : list string → list string)
  req repo m w namespace name m1 c n :
  tags_repo (http.Path req) = Some repo →
  http.Method req = "GET" →
  index (strings.Split repo "/") 0 = Some namespace →
  index (strings.Split repo "/") 1 = Some name →
  P namespace name "" m = (None, m1) →
  manifests m1 !! repo = Some c →
  strconv.Atoi (url.Get (http.Query req) "n") = (n, None) →
  0 ≤ n →
  ∃ tags,
    offset_last (url.Get (http.Query req) "last")
      (sort.Strings (collect_tags (rangeOrder (keys (deref m1 c)))))
    = Some tags
    ∧ call (handleTags P Marshal_listTags Quote rangeOrder req) (m, w)
      = (Returned None,
         (m1, write_json
                (Marshal_listTags
                   {| Name := repo; Tags := take (Z.to_nat n) tags |}) w))
    ∧ len (take (Z.to_nat n) tags) = Z.min n (len tags).
Proof.
  intros Hparts Hm H0 H1 HP Hrepo Hn Hpos.
  destruct (offset_last_suffix (url.Get (http.Query req) "last")
              (sort.Strings (collect_tags (rangeOrder (keys (deref m1 c))))))
    as (tags & Hlast & _).
  exists tags. split; [done|]. split.
  - rewrite (handleTags_listing P Marshal_listTags Quote rangeOrder
               req repo m w namespace name m1 c) by done.
    rewrite Hlast.
    destruct (Z.lt_ge_cases n (len tags)) as [Hlt|Hge].
    + by rewrite (limit_n_truncate _ n tags).
    + rewrite (limit_n_keep _ n tags) by done.
      rewrite take_ge; [done|]. unfold len in Hge. lia.
  - unfold len. rewrite length_take. lia.
Qed.

Lemma tags_limit_caps_witness :
  ∃ tags,
    offset_last "a" (sort.Strings (collect_tags (keys chart_table)))
    = Some tags
    ∧ call (handleTags idle plain_Marshal_listTags plain_Quote id
              (request "GET" "/v2/ns/chart/tags/list"
                 [("last", "a"); ("n", "2")]))
        (chart_store, http.NewRecorder)
      = (Returned None,
         (snd (idle "ns" "chart" "" chart_store),
          write_json
            (plain_Marshal_listTags
               {| Name := "ns/chart"; Tags := take (Z.to_nat 2) tags |})
            http.NewRecorder))
    ∧ len (take (Z.to_nat 2) tags) = Z.min 2 (len tags).
Proof.
  apply (tags_limit_caps idle plain_Marshal_listTags plain_Quote id
           (request "GET" "/v2/ns/chart/tags/list"
              [("last", "a"); ("n", "2")])
           "ns/chart" chart_store http.NewRecorder "ns" "chart"
           (snd (idle "ns" "chart" "" chart_store)) (Some 1%positive) 2).
  1-7: vm_compute; reflexivity.
  lia.
Defined.

(** Property X13: on a GET tags request that reaches the limit step with a
    non-empty [n] that [strconv.Atoi] rejects, the handler returns 400
    BAD_REQUEST with the parse error in its message. The Preparer has run
    by then, and its changes to the store stay. *)
Theorem tags_unparsable_limit_bad_request {W} (P : Preparer W)
  (Marshal_listTags : listTags → list byte) (Quote : string → string)
  (rangeOrder : list string → list string)
  req repo m w namespace name m1 c v err :
  tags_repo (http.Path req) = Some repo →
  http.Method req = "GET" →
  index (strings.Split repo "/") 0 = Some namespace →
  index (strings.Split repo "/") 1 = Some name →
  P namespace name "" m = (None, m1) →
  manifests m1 !! repo = Some c →
  url.Get (http.Query req) "n" ≠ "" →
  strconv.Atoi (url.Get (http.Query req) "n") = (v, Some err) →
  call (handleTags P Marshal_listTags Quote rangeOrder req) (m, w)
  = (Returned (Some {| Status := 400; Code := "BAD_REQUEST";
                       Message := "parsing n: " +:+ strconv.Error Quote err |}),
     (m1, w)).
Proof.
  intros Hparts Hm H0 H1 HP Hrepo Hne Herr.
  rewrite (handleTags_listing P Marshal_listTags Quote rangeOrder
             req repo m w namespace name m1 c) by done.
  destruct (offset_last_suffix (url.Get (http.Query req) "last")
              (sort.Strings (collect_tags (rangeOrder (keys (deref m1 c))))))
    as (tags & -> & _).
  by rewrite (limit_n_unparsable _ v err tags).
Qed.

Lemma tags_unparsable_limit_bad_request_witness :
  call (handleTags idle plain_Marshal_listTags plain_Quote id
          (request "GET" "/v2/ns/chart/tags/list" [("n", "two")]))
    (chart_store, http.NewRecorder)
  = (Returned
       (Some {| Status := 400; Code := "BAD_REQUEST";
                Message := "parsing n: "
                           +:+ strconv.Error plain_Quote
                                 {| strconv.Func := "Atoi";
                                    strconv.Num := "two";
                                    strconv.Err := strconv.ErrSyntax |} |}),
     (snd (idle "ns" "chart" "" chart_store), http.NewRecorder)).
Proof.
  apply (tags_unparsable_limit_bad_request idle plain_Marshal_listTags
           plain_Quote id
           (request "GET" "/v2/ns/chart/tags/list" [("n", "two")])
           "ns/chart" chart_store http.NewRecorder "ns" "chart"
           (snd (idle "ns" "chart" "" chart_store)) (Some 1%positive) 0).
  1-6: vm_compute; reflexivity.
  - discriminate.
  - vm_compute. reflexivity.
Defined.

(** A part of a sorted list, taken in order, is sorted. *)
Lemma StronglySorted_sublist {A} (R : relation A) (l1 l2 : list A) :
  l1 `sublist_of` l2 → StronglySorted R l2 → StronglySorted R l1.
Proof.
  induction 1 as [|x l1 l2 Hsub IH|x l1 l2 Hsub IH]; intros Hs.
  - constructor.
  - apply StronglySorted_cons in Hs as [Hx Hs].
    apply StronglySorted_cons. split; [|by apply IH].
    rewrite Forall_forall in *. intros y Hy. apply Hx.
    by apply (elem_of_sublist l1 l2).
  - apply StronglySorted_cons in Hs as [_ Hs]. by apply IH.
Qed.

Lemma ltb_negb_leb a b : String.ltb a b = negb (String.leb b a).
Proof.
  unfold String.ltb, String.leb. rewrite String.compare_antisym.
  by destruct (String.compare b a).
Qed.

Lemma ltb_le_trans last t x :
  String.ltb last t = true → String.le t x → String.ltb last x = true.
Proof.
  intros Hlt Hle. rewrite ltb_negb_leb in *.
  destruct (String.leb x last) eqn:Hx; [|done].
  assert (Htl : String.le t last).
  { transitivity x; [done|]. unfold String.le. by rewrite Hx. }
  unfold String.le in Htl. destruct (String.leb t last); done.
Qed.

(** On a sorted list the cursor step keeps the tags above [last], when
    there is one. *)
Lemma offset_last_sorted last tags :
  last ≠ "" →
  StronglySorted String.le tags →
  Exists (λ t, String.ltb last t = true) tags →
  offset_last last tags
  = Some (filter (λ t, String.ltb last t = true) tags).
Proof.
  intros Hne Hsorted Hex.
  destruct (first_above last tags)
    as [Hall|(skipped & t & post & -> & Hs & Ht)].
  { exfalso. apply Exists_exists in Hex as (t & Hin & Ht).
    rewrite Forall_forall in Hall. specialize (Hall t Hin). congruence. }
  rewrite (offset_last_cut last skipped t post Hne Hs Ht). f_equal.
  apply StronglySorted_app in Hsorted as (_ & _ & Hpost).
  apply StronglySorted_cons in Hpost as (Hge & _).
  rewrite filter_app, filter_cons, decide_True by done.
  assert (Hnil : filter (λ t, String.ltb last t = true) skipped = []).
  { clear -Hs. induction Hs as [|x skipped Hx _ IH]; [done|].
    rewrite filter_cons, decide_False by congruence. done. }
  assert (Hall : filter (λ t, String.ltb last t = true) post = post).
  { clear -Hge Ht. induction Hge as [|x post Hx _ IH]; [done|].
    rewrite filter_cons, decide_True by (by apply (ltb_le_trans last t)).
    by rewrite IH. }
  by rewrite Hnil, Hall.
Qed.

(** Property X14: on a GET tags request that reaches the cursor step with a
    non-empty [last], no [n], and at least one tag above [last], the
    response lists exactly the tags of the repository that are above
    [last], in ascending order. *)
Theorem tags_cursor_lists_tags_above_last {W} (P : Preparer W)
  (Marshal_listTags : listTags → list byte) (Quote : string → string)
  (rangeOrder : list string → list string)
  req repo m w namespace name m1 c above :
  (∀ l, rangeOrder l ≡ₚ l) →
  tags_repo (http.Path req) = Some repo →
  http.Method req = "GET" →
  index (strings.Split repo "/") 0 = Some namespace →
  index (strings.Split repo "/") 1 = Some name →
  P namespace name "" m = (None, m1) →
  manifests m1 !! repo = Some c →
  url.Get (http.Query req) "last" ≠ "" →
  url.Get (http.Query req) "n" = "" →
  is_Some (deref m1 c !! above) →
  strings.Contains above "sha256:" = false →
  String.ltb (url.Get (http.Query req) "last") above = true →
  ∃ tags,
    call (handleTags P Marshal_listTags Quote rangeOrder req) (m, w)
    = (Returned None,
       (m1, write_json
              (Marshal_listTags {| Name := repo; Tags := tags |}) w))
    ∧ (∀ key, key ∈ tags
              ↔ is_Some (deref m1 c !! key)
                ∧ strings.Contains key "sha256:" = false
                ∧ String.ltb (url.Get (http.Query req) "last") key = true)
    ∧ StronglySorted String.le tags.
Proof.
  intros Hperm Hparts Hm H0 H1 HP Hrepo Hlast Hn Hin Htag Habove.
  set (last := url.Get (http.Query req) "last") in *.
  set (all := sort.Strings (collect_tags (rangeOrder (keys (deref m1 c))))).
  assert (Hsorted : StronglySorted String.le all)
    by (by apply tag_list_sorted).
  assert (Hcut : offset_last last all
                 = Some (filter (λ t, String.ltb last t = true) all)).
  { apply offset_last_sorted; [done|done|].
    apply Exists_exists. exists above. split; [|done].
    by apply tag_list_elem_of. }
  exists (filter (λ t, String.ltb last t = true) all). split; [|split].
  - rewrite (handleTags_listing P Marshal_listTags Quote rangeOrder
               req repo m w namespace name m1 c) by done.
    fold last. fold all. rewrite Hcut, Hn. reflexivity.
  - intros key. rewrite list_elem_of_filter.
    unfold all. rewrite (tag_list_elem_of rangeOrder Hperm). tauto.
  - by apply (StronglySorted_sublist _ _ all); [apply sublist_filter|].
Qed.

Lemma tags_cursor_lists_tags_above_last_witness :
  ∃ tags,
    call (handleTags idle plain_Marshal_listTags plain_Quote reverse
            (request "GET" "/v2/ns/chart/tags/list" [("last", "b")]))
      (chart_store, http.NewRecorder)
    = (Returned None,
       (snd (idle "ns" "chart" "" chart_store),
        write_json
          (plain_Marshal_listTags {| Name := "ns/chart"; Tags := tags |})
          http.NewRecorder))
    ∧ (∀ key, key ∈ tags
              ↔ is_Some (chart_table !! key)
                ∧ strings.Contains key "sha256:" = false
                ∧ String.ltb "b" key = true)
    ∧ StronglySorted String.le tags.
Proof.
  apply (tags_cursor_lists_tags_above_last idle plain_Marshal_listTags
           plain_Quote reverse
           (request "GET" "/v2/ns/chart/tags/list" [("last", "b")])
           "ns/chart" chart_store http.NewRecorder "ns" "chart"
           (snd (idle "ns" "chart" "" chart_store)) (Some 1%positive) "c").
  - intros l. apply reverse_Permutation.
  - vm_compute. reflexivity.
  - reflexivity.
  - vm_compute. reflexivity.
  - vm_compute. reflexivity.
  - reflexivity.
  - vm_compute. reflexivity.
  - discriminate.
  - vm_compute. reflexivity.
  - vm_compute. eauto.
  - vm_compute. reflexivity.
  - vm_compute. reflexivity.
Defined.

(** Property X15: the tag listing does not depend on the order in which Go
    ranges over the reference table: with any two visiting orders the
    handler returns the same result, the same store and the same response.
    The sort after the loop makes it so. *)
Theorem tags_listing_order_independent {W} (P : Preparer W)
  (Marshal_listTags : listTags → list byte) (Quote : string → string)
  (order1 order2 : list string → list string) req (s : state W) :
  (∀ l, order1 l ≡ₚ l) →
  (∀ l, order2 l ≡ₚ l) →
  call (handleTags P Marshal_listTags Quote order1 req) s
  = call (handleTags P Marshal_listTags Quote order2 req) s.
Proof.
  intros Hp1 Hp2. destruct s as [m w]. unfold call, handleTags. cbn zeta.
  destruct (slice_from _ 1) as [elem|]; steps; [|reflexivity].
  destruct (slice elem 1 _) as [sub|]; steps; [|reflexivity].
  destruct (String.eqb (http.Method req) "GET"); [|reflexivity].
  destruct (index _ 0) as [namespace|]; steps; [|reflexivity].
  destruct (index _ 1) as [name|]; steps; [|reflexivity].
  destruct (P namespace name "" m) as [[e|] m1]; steps; [reflexivity|].
  destruct (manifests_lookup m1 (strings.Join sub "/")) as [c [|]]; steps;
    [|reflexivity].
  by rewrite (tag_list_order_irrelevant order1 order2 (deref m1 c)).
Qed.

Lemma tags_listing_order_independent_witness :
  call (handleTags idle plain_Marshal_listTags plain_Quote id
          (request "GET" "/v2/ns/chart/tags/list" [("n", "3")]))
    (chart_store, http.NewRecorder)
  = call (handleTags idle plain_Marshal_listTags plain_Quote reverse
            (request "GET" "/v2/ns/chart/tags/list" [("n", "3")]))
      (chart_store, http.NewRecorder).
Proof.
  apply (tags_listing_order_independent idle plain_Marshal_listTags
           plain_Quote id reverse).
  - intros l. reflexivity.
  - intros l. apply reverse_Permutation.
Defined.

(** Property X16: whatever [last] and [n] are, the tags of a response that
    [handleTags] writes are tags of the repository, none a digest key, none
    twice, in ascending order: the cursor and the limit only take a run out
    of the sorted tag list. *)
Theorem tags_response_is_sorted_run {W} (P : Preparer W)
  (Marshal_listTags : listTags → list byte) (Quote : string → string)
  (rangeOrder : list string → list string)
  req repo m w namespace name m1 c m' w' :
  (∀ l, rangeOrder l ≡ₚ l) →
  tags_repo (http.Path req) = Some repo →
  http.Method req = "GET" →
  index (strings.Split repo "/") 0 = Some namespace →
  index (strings.Split repo "/") 1 = Some name →
  P namespace name "" m = (None, m1) →
  manifests m1 !! repo = Some c →
  call (handleTags P Marshal_listTags Quote rangeOrder req) (m, w)
  = (Returned None, (m', w')) →
  ∃ tags,
    m' = m1
    ∧ w' = write_json (Marshal_listTags {| Name := repo; Tags := tags |}) w
    ∧ (∀ key, key ∈ tags →
              is_Some (deref m1 c !! key)
              ∧ strings.Contains key "sha256:" = false)
    ∧ NoDup tags
    ∧ StronglySorted String.le tags.
Proof.
  intros Hperm Hparts Hm H0 H1 HP Hrepo.
  rewrite (handleTags_listing P Marshal_listTags Quote rangeOrder
             req repo m w namespace name m1 c) by done.
  set (all := sort.Strings (collect_tags (rangeOrder (keys (deref m1 c))))).
  destruct (offset_last_suffix (url.Get (http.Query req) "last") all)
    as (cut & -> & Hsuffix).
  destruct (limit_n _ cut) as [err|[tags|]] eqn:Hlimit; [done| |done].
  intros [= <- <-]. exists tags.
  assert (Hsub : tags `sublist_of` all).
  { destruct (limit_n_prefix _ _ _ Hlimit) as [k1 ->].
    destruct Hsuffix as [k2 ->].
    by apply sublist_inserts_l, sublist_inserts_r. }
  repeat split; try done.
  - apply (tag_list_elem_of rangeOrder Hperm).
    by apply (elem_of_sublist tags all).
  - apply (tag_list_elem_of rangeOrder Hperm (deref m1 c) key).
    by apply (elem_of_sublist tags all).
  - apply (sublist_NoDup tags all); [|done]. by apply tag_list_NoDup.
  - apply (StronglySorted_sublist _ tags all); [done|].
    by apply tag_list_sorted.
Qed.

Lemma tags_response_is_sorted_run_witness :
  ∃ tags,
    snd (idle "ns" "chart" "" chart_store)
    = snd (idle "ns" "chart" "" chart_store)
    ∧ write_json
        (plain_Marshal_listTags {| Name := "ns/chart"; Tags := ["b"; "c"] |})
        http.NewRecorder
      = write_json
          (plain_Marshal_listTags {| Name := "ns/chart"; Tags := tags |})
          http.NewRecorder
    ∧ (∀ key, key ∈ tags →
              is_Some (chart_table !! key)
              ∧ strings.Contains key "sha256:" = false)
    ∧ NoDup tags
    ∧ StronglySorted String.le tags.
Proof.
  apply (tags_response_is_sorted_run idle plain_Marshal_listTags
           plain_Quote reverse
           (request "GET" "/v2/ns/chart/tags/list"
              [("last", "a"); ("n", "2")])
           "ns/chart" chart_store http.NewRecorder "ns" "chart"
           (snd (idle "ns" "chart" "" chart_store)) (Some 1%positive)).
  - intros l. apply reverse_Permutation.
  - vm_compute. reflexivity.
  - reflexivity.
  - vm_compute. reflexivity.
  - vm_compute. reflexivity.
  - reflexivity.
  - vm_compute. reflexivity.
  - vm_compute. reflexivity.
Defined.

(** ** What a handler does to the store and to the response *)

(** The store a run leaves, given the stores the Preparer calls produced. *)
Ltac store_after :=
  repeat (match goal with
          | H : _ = (_, _) |- _ => rewrite H
          end; simpl);
  reflexivity.

(** A run of [handle]: the response is written only on a nil return, and
    the store changes only through the Preparer, called at most twice. *)
Lemma handle_runs {W} (P : Preparer W) req m w o m' w' :
  call (handle P req) (m, w) = (o, (m', w')) →
  (o = Returned None ∨ w' = w)
  ∧ (m' = m
     ∨ ∃ repo target namespace name,
         manifest_parts (http.Path req) = Some (repo, target)
         ∧ index (strings.Split repo "/") 0 = Some namespace
         ∧ index (strings.Split repo "/") 1 = Some name
         ∧ (m' = snd (P namespace name target m)
            ∨ m' = snd (P namespace name target
                          (snd (P namespace name target m))))).
Proof.
  destruct (manifest_parts (http.Path req)) as [[repo target]|] eqn:Hparts.
  2:{ unfold manifest_parts in Hparts. unfold call, handle. cbn zeta.
      destruct (slice_from _ 1) as [elem|]; steps;
        [|intros [= <- <- <-]; auto]. simpl in Hparts.
      destruct (index elem _) as [t|]; steps;
        [|intros [= <- <- <-]; auto]. simpl in Hparts.
      destruct (slice elem 1 _) as [sub|]; steps; [done|].
      intros [= <- <- <-]; auto. }
  enter_handle Hparts. unfold http.MethodGet, http.MethodHead.
  destruct (String.eqb (http.Method req) "GET").
  - steps. destruct (manifests_lookup m repo) as [c ok]. steps.
    repeat (steps; branch P); steps.
    all: intros [= <- <- <-]; (split; [auto|]).
    all: try (left; reflexivity).
    all: right; exists repo, target; do 2 eexists;
      (split; [reflexivity|]); (split; [eassumption|]);
      (split; [eassumption|]).
    all: first [left; store_after | right; store_after].
  - steps. destruct (String.eqb (http.Method req) "HEAD");
      [|steps; intros [= <- <- <-]; auto].
    steps. repeat (steps; branch P); steps.
    all: intros [= <- <- <-]; (split; [auto|]).
    all: try (left; reflexivity).
    all: right; exists repo, target; do 2 eexists;
      (split; [reflexivity|]); (split; [eassumption|]);
      (split; [eassumption|]).
    all: first [left; store_after | right; store_after].
Qed.

(** A run of [handleTags]: one Preparer call at most, and a response only
    on a nil return. *)
Lemma handleTags_runs {W} (P : Preparer W)
  (Marshal_listTags : listTags → list byte) (Quote : string → string)
  (rangeOrder : list string → list string) req m w o m' w' :
  call (handleTags P Marshal_listTags Quote rangeOrder req) (m, w)
  = (o, (m', w')) →
  match o with
  | Returned None => ∃ msg, w' = write_json msg w
  | _ => w' = w
  end
  ∧ (m' = m
     ∨ ∃ repo namespace name,
         tags_repo (http.Path req) = Some repo
         ∧ index (strings.Split repo "/") 0 = Some namespace
         ∧ index (strings.Split repo "/") 1 = Some name
         ∧ m' = snd (P namespace name "" m)).
Proof.
  destruct (tags_repo (http.Path req)) as [repo|] eqn:Hparts.
  2:{ unfold tags_repo in Hparts. unfold call, handleTags. cbn zeta.
      destruct (slice_from _ 1) as [elem|]; steps;
        [|intros [= <- <- <-]; auto]. simpl in Hparts.
      destruct (slice elem 1 _) as [sub|]; steps; [done|].
      intros [= <- <- <-]; auto. }
  enter_handleTags Hparts.
  destruct (String.eqb (http.Method req) "GET");
    [|intros [= <- <- <-]; auto].
  destruct (index _ 0) as [namespace|] eqn:H0; steps;
    [|intros [= <- <- <-]; auto].
  destruct (index _ 1) as [name|] eqn:H1; steps;
    [|intros [= <- <- <-]; auto].
  assert (Hstore : ∀ m1 : Manifests W,
             m1 = snd (P namespace name "" m) →
             m1 = m
             ∨ ∃ repo0 namespace0 name0,
                 Some repo = Some repo0
                 ∧ index (strings.Split repo0 "/") 0 = Some namespace0
                 ∧ index (strings.Split repo0 "/") 1 = Some name0
                 ∧ m1 = snd (P namespace0 name0 "" m)).
  { intros m1 ->. right. by exists repo, namespace, name. }
  destruct (P namespace name "" m) as [[e|] m1]; steps;
    [intros [= <- <- <-]; auto|].
  destruct (manifests_lookup m1 repo) as [c [|]]; steps;
    [|intros [= <- <- <-]; auto].
  destruct (offset_last _ _) as [cut|]; steps;
    [|intros [= <- <- <-]; auto].
  destruct (limit_n _ cut) as [err|[tags|]]; steps;
    intros [= <- <- <-]; (split; [|auto]); [done| |done].
  eexists. reflexivity.
Qed.

(** Property X17: [handle] changes the store only through the Preparer,
    which it calls at most twice, each time with the first two components
    of the repository name and the reference; further components of the
    name are not passed on. *)
Theorem manifest_store_changes_only_by_preparer {W} (P : Preparer W)
  req m w o m' w' :
  call (handle P req) (m, w) = (o, (m', w')) →
  m' = m
  ∨ ∃ repo target namespace name,
      manifest_parts (http.Path req) = Some (repo, target)
      ∧ index (strings.Split repo "/") 0 = Some namespace
      ∧ index (strings.Split repo "/") 1 = Some name
      ∧ (m' = snd (P namespace name target m)
         ∨ m' = snd (P namespace name target
                       (snd (P namespace name target m)))).
Proof. intros H. by destruct (handle_runs P req m w o m' w' H). Qed.

Lemma manifest_store_changes_only_by_preparer_witness :
  snd (populate "a" "b" "1.0.0" (snd (populate "a" "b" "1.0.0" empty_store)))
  = empty_store
  ∨ ∃ repo target namespace name,
      manifest_parts "/v2/a/b/c/manifests/1.0.0" = Some (repo, target)
      ∧ index (strings.Split repo "/") 0 = Some namespace
      ∧ index (strings.Split repo "/") 1 = Some name
      ∧ (snd (populate "a" "b" "1.0.0"
                (snd (populate "a" "b" "1.0.0" empty_store)))
         = snd (populate namespace name target empty_store)
         ∨ snd (populate "a" "b" "1.0.0"
                  (snd (populate "a" "b" "1.0.0" empty_store)))
           = snd (populate namespace name target
                    (snd (populate namespace name target empty_store)))).
Proof.
  apply (manifest_store_changes_only_by_preparer populate
           (request "HEAD" "/v2/a/b/c/manifests/1.0.0" [])
           empty_store http.NewRecorder
           (Returned (Some errNotFound))
           (snd (populate "a" "b" "1.0.0"
                   (snd (populate "a" "b" "1.0.0" empty_store))))
           http.NewRecorder).
  vm_compute. reflexivity.
Defined.

(** Property X18: [handleTags] changes the store only through the
    Preparer, which it calls at most once, with the first two components of
    the repository name and the empty reference. *)
Theorem tags_store_changes_only_by_preparer {W} (P : Preparer W)
  (Marshal_listTags : listTags → list byte) (Quote : string → string)
  (rangeOrder : list string → list string) req m w o m' w' :
  call (handleTags P Marshal_listTags Quote rangeOrder req) (m, w)
  = (o, (m', w')) →
  m' = m
  ∨ ∃ repo namespace name,
      tags_repo (http.Path req) = Some repo
      ∧ index (strings.Split repo "/") 0 = Some namespace
      ∧ index (strings.Split repo "/") 1 = Some name
      ∧ m' = snd (P namespace name "" m).
Proof.
  intros H.
  by destruct (handleTags_runs P Marshal_listTags Quote rangeOrder
                 req m w o m' w' H).
Qed.

Lemma tags_store_changes_only_by_preparer_witness :
  snd (populate "ns" "chart" "" empty_store) = empty_store
  ∨ ∃ repo namespace name,
      tags_repo "/v2/ns/chart/tags/list" = Some repo
      ∧ index (strings.Split repo "/") 0 = Some namespace
      ∧ index (strings.Split repo "/") 1 = Some name
      ∧ snd (populate "ns" "chart" "" empty_store)
        = snd (populate namespace name "" empty_store).
Proof.
  apply (tags_store_changes_only_by_preparer populate
           plain_Marshal_listTags plain_Quote id
           (request "GET" "/v2/ns/chart/tags/list" [("n", "x")])
           empty_store http.NewRecorder
           (Returned
              (Some (errBadRequest plain_Quote
                       {| strconv.Func := "Atoi"; strconv.Num := "x";
                          strconv.Err := strconv.ErrSyntax |})))
           (snd (populate "ns" "chart" "" empty_store))
           http.NewRecorder).
  vm_compute. reflexivity.
Defined.

(** Property X19: [handleCatalog] only reads: for every method, query and
    visiting order it returns, without a panic, and leaves the store as it
    was; it has no Preparer to call. *)
Theorem catalog_only_reads {W} (Marshal_Catalog : Catalog → list byte)
  (rangeOrder : list string → list string) req (m : Manifests W) w :
  ∃ e w',
    call (handleCatalog Marshal_Catalog rangeOrder req) (m, w)
    = (Returned e, (m, w')).
Proof.
  destruct (String.eqb (http.Method req) "GET") eqn:Hm.
  - apply String.eqb_eq in Hm.
    rewrite (handleCatalog_GET Marshal_Catalog rangeOrder req m w Hm).
    eauto.
  - rewrite (handleCatalog_method_unknown Marshal_Catalog rangeOrder req
               (m, w) Hm).
    eauto.
Qed.

(** Property X20: a handler that returns an error, or panics, has written
    nothing to the response: headers, status and body are written only on
    the way to a nil return. *)
Theorem error_leaves_response_untouched {W} (P : Preparer W)
  (Marshal_listTags : listTags → list byte)
  (Marshal_Catalog : Catalog → list byte) (Quote : string → string)
  (rangeOrder : list string → list string) e req m w o m' w' :
  call (handler P Marshal_listTags Marshal_Catalog Quote rangeOrder e req)
    (m, w)
  = (o, (m', w')) →
  o = Returned None ∨ w' = w.
Proof.
  destruct e; simpl; intros H.
  - by destruct (handle_runs P req m w o m' w' H).
  - destruct (handleTags_runs P Marshal_listTags Quote rangeOrder
                req m w o m' w' H) as [Hw _].
    destruct o as [[err|]|msg]; auto.
  - destruct (String.eqb (http.Method req) "GET") eqn:Hm.
    + apply String.eqb_eq in Hm.
      rewrite (handleCatalog_GET Marshal_Catalog rangeOrder req m w Hm)
        in H.
      injection H as <- _ _. by left.
    + rewrite (handleCatalog_method_unknown Marshal_Catalog rangeOrder req
                 (m, w) Hm) in H.
      injection H as _ _ <-. by right.
Qed.

Lemma error_leaves_response_untouched_witness :
  Returned (Some errNotFound) = Returned None
  ∨ http.NewRecorder = http.NewRecorder.
Proof.
  apply (error_leaves_response_untouched populate plain_Marshal_listTags
           plain_Marshal_Catalog plain_Quote id EManifest
           (request "GET" "/v2/ns/chart/manifests/1.0.0" [])
           empty_store http.NewRecorder (Returned (Some errNotFound))
           (snd (populate "ns" "chart" "1.0.0"
                   (snd (populate "ns" "chart" "1.0.0" empty_store))))
           http.NewRecorder).
  vm_compute. reflexivity.
Defined.




(** ** The components of a repository name *)

Lemma Contains_slash_cons a s :
  strings.Contains (String a s) "/"
  = if ascii_dec "/" a then true else strings.Contains s "/".
Proof.
  cbn [strings.Contains String.prefix].
  destruct (ascii_dec "/" a); [|done]. by destruct s.
Qed.

Lemma Contains_slash_rev_app x y :
  strings.Contains (String.rev_app x y) "/"
  = strings.Contains x "/" || strings.Contains y "/".
Proof.
  revert y. induction x as [|a x IH]; intros y; [done|].
  change (String.rev_app (String a x) y)
    with (String.rev_app x (String a y)).
  rewrite IH, !Contains_slash_cons.
  destruct (ascii_dec "/" a); [|done].
  by destruct (strings.Contains x "/").
Qed.

Lemma rev_app_rev_app x y z :
  String.rev_app (String.rev_app x y) z = String.rev_app y (x +:+ z).
Proof.
  revert y z. induction x as [|a x IH]; intros y z; [done|].
  change (String.rev_app (String a x) y)
    with (String.rev_app x (String a y)).
  by rewrite IH.
Qed.

Lemma append_empty_r x : x +:+ "" = x.
Proof.
  induction x as [|a x IH]; [done|].
  change (String a x +:+ "") with (String a (x +:+ "")). by f_equal.
Qed.

Lemma rev_rev_app x : String.rev (String.rev_app x "") = x.
Proof.
  unfold String.rev. rewrite rev_app_rev_app. apply append_empty_r.
Qed.

(** At a slash [Split_go] closes the current piece. *)
Lemma Split_go_slash cur rest :
  strings.Split_go "/" 0 cur (String "/" rest)
  = String.rev cur :: strings.Split_go "/" 0 "" rest.
Proof.
  cbn [strings.Split_go String.prefix String.length Nat.pred].
  destruct (ascii_dec "/" "/"); [|done]. by destruct rest.
Qed.

Lemma Split_go_other a cur rest :
  a ≠ "/"%char →
  strings.Split_go "/" 0 cur (String a rest)
  = strings.Split_go "/" 0 (String a cur) rest.
Proof.
  intros Hne. cbn [strings.Split_go String.prefix].
  destruct (ascii_dec "/" a); [congruence|done].
Qed.

(** [Split_go] passes over a piece without a slash. *)
Lemma Split_go_piece x cur rest :
  strings.Contains x "/" = false →
  strings.Split_go "/" 0 cur (x +:+ rest)
  = strings.Split_go "/" 0 (String.rev_app x cur) rest.
Proof.
  revert cur. induction x as [|a x IH]; intros cur Hx; [done|].
  rewrite Contains_slash_cons in Hx.
  destruct (ascii_dec "/" a) as [|Hne]; [done|].
  change (String a x +:+ rest) with (String a (x +:+ rest)).
  rewrite Split_go_other by congruence. by apply IH.
Qed.

(** Splitting what was joined gives the pieces back. *)
Lemma Split_Join x (segs : list string) :
  Forall (λ s, strings.Contains s "/" = false) (x :: segs) →
  strings.Split (strings.Join (x :: segs) "/") "/" = x :: segs.
Proof.
  unfold strings.Split, strings.Join.
  revert x. induction segs as [|y segs IH]; intros x Hfree.
  - apply Forall_cons in Hfree as [Hx _]. simpl.
    rewrite <- (append_empty_r x) at 1.
    rewrite Split_go_piece by done. cbn [strings.Split_go].
    by rewrite rev_rev_app.
  - apply Forall_cons in Hfree as [Hx Hfree].
    change (String.concat "/" (x :: y :: segs))
      with (x +:+ String "/" (String.concat "/" (y :: segs))).
    rewrite Split_go_piece by done. rewrite Split_go_slash.
    rewrite rev_rev_app. f_equal. by apply IH.
Qed.

(** No piece of a split contains the separator. *)
Lemma Split_go_free s cur :
  strings.Contains cur "/" = false →
  Forall (λ x, strings.Contains x "/" = false)
    (strings.Split_go "/" 0 cur s).
Proof.
  revert cur. induction s as [|a s IH]; intros cur Hcur.
  - constructor; [|constructor]. unfold String.rev.
    by rewrite Contains_slash_rev_app, Hcur.
  - destruct (ascii_dec "/" a) as [<-|Hne].
    + rewrite Split_go_slash. constructor; [|by apply IH].
      unfold String.rev. by rewrite Contains_slash_rev_app, Hcur.
    + rewrite Split_go_other by congruence.
      apply IH. rewrite Contains_slash_cons.
      by destruct (ascii_dec "/" a).
Qed.

Lemma Split_free s :
  Forall (λ x, strings.Contains x "/" = false) (strings.Split s "/").
Proof. by apply Split_go_free. Qed.

Lemma slice_Some {A} (l l' : list A) lo hi :
  slice l lo hi = Some l' →
  0 ≤ lo ≤ hi ∧ hi ≤ len l
  ∧ l' = take (Z.to_nat (hi - lo)) (drop (Z.to_nat lo) l)
  ∧ len l' = hi - lo.
Proof.
  unfold slice. intros H.
  destruct (lo <? 0) eqn:E0; [done|].
  destruct (hi <? lo) eqn:E1; [done|].
  destruct (len l <? hi) eqn:E2; [done|]. simpl in H.
  apply Z.ltb_ge in E0, E1, E2. injection H as <-.
  split; [lia|]. split; [lia|]. split; [done|].
  unfold len in *. rewrite length_take, length_drop. lia.
Qed.

(** Property X22: on a path that [isManifest] or [isTags] accepts, the
    components [hostnameParts] that the handlers split the repository name
    into are the path segments between the first one and the last two.
    There is at least one, and the Preparer is given the second and the
    third segment of the path when there are two. *)
Theorem name_components_are_path_segments req word :
  is_kind word req = Some true →
  ∃ elem sub,
    slice_from (strings.Split (http.Path req) "/") 1 = Some elem
    ∧ slice elem 1 (len elem - 2) = Some sub
    ∧ tags_repo (http.Path req) = Some (strings.Join sub "/")
    ∧ strings.Split (strings.Join sub "/") "/" = sub
    ∧ len sub = len elem - 3
    ∧ 1 ≤ len sub.
Proof.
  unfold is_kind, tags_repo.
  destruct (slice_from _ 1) as [elem|] eqn:He; simpl; [|done].
  destruct (len elem <? 4) eqn:E; [done|]. apply Z.ltb_ge in E. intros _.
  destruct (slice_is_Some elem 1 (len elem - 2)) as [sub Hs]; [lia|lia|].
  rewrite Hs. simpl. exists elem, sub.
  destruct (slice_Some _ _ _ _ Hs) as (_ & _ & Hsub & Hlen).
  destruct (slice_from_len _ _ _ He) as (_ & _ & Helem).
  assert (Hfree : Forall (λ x, strings.Contains x "/" = false) sub).
  { rewrite Hsub. apply Forall_take, Forall_drop. rewrite Helem.
    apply Forall_drop, Split_free. }
  repeat split; try done; try lia.
  destruct sub as [|x segs]; [unfold len in *; simpl in *; lia|].
  by apply Split_Join.
Qed.

Lemma name_components_are_path_segments_witness :
  ∃ elem sub,
    slice_from (strings.Split "/v2/a/b/c/tags/list" "/") 1 = Some elem
    ∧ slice elem 1 (len elem - 2) = Some sub
    ∧ tags_repo "/v2/a/b/c/tags/list" = Some (strings.Join sub "/")
    ∧ strings.Split (strings.Join sub "/") "/" = sub
    ∧ len sub = len elem - 3
    ∧ 1 ≤ len sub.
Proof.
  apply (name_components_are_path_segments
           (request "GET" "/v2/a/b/c/tags/list" []) "tags").
  vm_compute. reflexivity.
Defined.

Lemma rev_app_append x y z :
  String.rev_app x y +:+ z = String.rev_app x (y +:+ z).
Proof.
  revert y. induction x as [|a x IH]; intros y; [done|].
  change (String.rev_app (String a x) y)
    with (String.rev_app x (String a y)).
  change (String.rev_app (String a x) (y +:+ z))
    with (String.rev_app x (String a (y +:+ z))).
  by rewrite IH.
Qed.

Lemma Join_cons x y l :
  strings.Join (x :: y :: l) "/" = x +:+ String "/" (strings.Join (y :: l) "/").
Proof. reflexivity. Qed.

(** Joining the pieces of a split gives the string back. *)
Lemma Join_Split_go s cur :
  strings.Join (strings.Split_go "/" 0 cur s) "/" = String.rev cur +:+ s.
Proof.
  revert cur. induction s as [|a s IH]; intros cur.
  - cbn [strings.Split_go]. unfold strings.Join. simpl.
    by rewrite append_empty_r.
  - destruct (ascii_dec "/" a) as [<-|Hne].
    + rewrite Split_go_slash.
      destruct (strings.Split_go "/" 0 "" s) as [|y l] eqn:E.
      { by apply Split_go_nonempty in E. }
      rewrite Join_cons, <- E, IH. reflexivity.
    + rewrite Split_go_other by congruence. rewrite IH.
      unfold String.rev.
      change (String.rev_app (String a cur) "")
        with (String.rev_app cur (String a "")).
      rewrite !rev_app_append. reflexivity.
Qed.

Lemma Join_Split s : strings.Join (strings.Split s "/") "/" = s.
Proof. unfold strings.Split. by rewrite Join_Split_go. Qed.

(** Splitting goes piece by piece across a slash. *)
Lemma Split_go_app x cur rest :
  strings.Split_go "/" 0 cur (x +:+ String "/" rest)
  = strings.Split_go "/" 0 cur x ++ strings.Split_go "/" 0 "" rest.
Proof.
  revert cur. induction x as [|a x IH]; intros cur.
  - change ("" +:+ String "/" rest) with (String "/" rest).
    by rewrite Split_go_slash.
  - change (String a x +:+ String "/" rest)
      with (String a (x +:+ String "/" rest)).
    destruct (ascii_dec "/" a) as [<-|Hne].
    + rewrite !Split_go_slash, IH. reflexivity.
    + rewrite !Split_go_other by congruence. apply IH.
Qed.

Lemma Split_app x rest :
  strings.Split (x +:+ String "/" rest) "/"
  = strings.Split x "/" ++ strings.Split rest "/".
Proof. apply Split_go_app. Qed.

Lemma Split_piece x :
  strings.Contains x "/" = false → strings.Split x "/" = [x].
Proof.
  intros Hx. unfold strings.Split. rewrite <- (append_empty_r x) at 1.
  rewrite Split_go_piece by done. cbn [strings.Split_go].
  by rewrite rev_rev_app.
Qed.

(** The segments of a manifest path and of a tags path. *)
Lemma Split_manifest_path name ref :
  strings.Contains ref "/" = false →
  strings.Split ("/v2/" +:+ name +:+ "/manifests/" +:+ ref) "/"
  = "" :: "v2" :: strings.Split name "/" ++ ["manifests"; ref].
Proof.
  intros Href.
  change ("/v2/" +:+ name +:+ "/manifests/" +:+ ref)
    with ("" +:+ String "/" ("v2" +:+ String "/"
            (name +:+ String "/" ("manifests" +:+ String "/" ref)))).
  rewrite !Split_app. rewrite (Split_piece ref Href). reflexivity.
Qed.

Lemma Split_tags_path name :
  strings.Split ("/v2/" +:+ name +:+ "/tags/list") "/"
  = "" :: "v2" :: strings.Split name "/" ++ ["tags"; "list"].
Proof.
  change ("/v2/" +:+ name +:+ "/tags/list")
    with ("" +:+ String "/" ("v2" +:+ String "/"
            (name +:+ String "/" ("tags" +:+ String "/" "list")))).
  rewrite !Split_app. reflexivity.
Qed.

Lemma path_segments {A} (v : A) pieces w r :
  index (v :: pieces ++ [w; r]) (len (v :: pieces ++ [w; r]) - 1) = Some r
  ∧ index (v :: pieces ++ [w; r]) (len (v :: pieces ++ [w; r]) - 2) = Some w
  ∧ slice (v :: pieces ++ [w; r]) 1 (len (v :: pieces ++ [w; r]) - 2)
    = Some pieces
  ∧ len (v :: pieces ++ [w; r]) = len pieces + 3.
Proof.
  assert (Hlen : len (v :: pieces ++ [w; r]) = len pieces + 3).
  { unfold len. simpl. rewrite length_app. simpl. lia. }
  rewrite !Hlen. pose proof (len_nonneg pieces) as Hp.
  unfold index, slice. rewrite !Hlen.
  destruct (len pieces + 3 - 1 <? 0) eqn:E1; [apply Z.ltb_lt in E1; lia|].
  destruct (len pieces + 3 <=? len pieces + 3 - 1) eqn:E2;
    [apply Z.leb_le in E2; lia|].
  destruct (len pieces + 3 - 2 <? 0) eqn:E3; [apply Z.ltb_lt in E3; lia|].
  destruct (len pieces + 3 <=? len pieces + 3 - 2) eqn:E4;
    [apply Z.leb_le in E4; lia|].
  destruct (len pieces + 3 - 2 <? 1) eqn:E5; [apply Z.ltb_lt in E5; lia|].
  destruct (len pieces + 3 <? len pieces + 3 - 2) eqn:E6;
    [apply Z.ltb_lt in E6; lia|].
  simpl. unfold len.
  replace (Z.to_nat (Z.of_nat (length pieces) + 3 - 1))
    with (S (length pieces + 1)) by lia.
  replace (Z.to_nat (Z.of_nat (length pieces) + 3 - 2))
    with (S (length pieces + 0)) by lia.
  replace (Z.to_nat (Z.of_nat (length pieces) + 3 - 2 - 1))
    with (length pieces) by lia.
  simpl. rewrite !lookup_app_r by lia.
  replace (length pieces + 1 - length pieces)%nat with 1%nat by lia.
  replace (length pieces + 0 - length pieces)%nat with 0%nat by lia.
  rewrite drop_0, take_app_length. done.
Qed.

Lemma slice_from_1 {A} (x : A) l : slice_from (x :: l) 1 = Some l.
Proof. apply (slice_from_drop (x :: l) 1). simpl. lia. Qed.

(** Property X23: the URL grammar of the two endpoints. For every
    repository name, with any number of slashes, and every reference
    without a slash, the path [/v2/<name>/manifests/<ref>] is a manifest
    path and [handle] takes exactly [<name>] and [<ref>] from it; the path
    [/v2/<name>/tags/list] is a tags path and [handleTags] takes [<name>]
    from it. *)
Theorem path_grammar name ref method query :
  strings.Contains ref "/" = false →
  manifest_parts ("/v2/" +:+ name +:+ "/manifests/" +:+ ref)
  = Some (name, ref)
  ∧ isManifest {| http.Method := method;
                  http.Path := "/v2/" +:+ name +:+ "/manifests/" +:+ ref;
                  http.Query := query |} = Some true
  ∧ tags_repo ("/v2/" +:+ name +:+ "/tags/list") = Some name
  ∧ isTags {| http.Method := method;
              http.Path := "/v2/" +:+ name +:+ "/tags/list";
              http.Query := query |} = Some true.
Proof.
  intros Href.
  pose proof (Split_len "/" name) as Hp.
  split; [|split; [|split]].
  - unfold manifest_parts. rewrite (Split_manifest_path name ref Href).
    rewrite slice_from_1. simpl.
    destruct (path_segments "v2" (strings.Split name "/") "manifests" ref)
      as (-> & _ & -> & _).
    simpl. by rewrite Join_Split.
  - unfold isManifest, is_kind. simpl.
    rewrite (Split_manifest_path name ref Href).
    rewrite slice_from_1. simpl.
    destruct (path_segments "v2" (strings.Split name "/") "manifests" ref)
      as (_ & -> & _ & ->).
    destruct (_ <? 4) eqn:E; [apply Z.ltb_lt in E; lia|]. done.
  - unfold tags_repo. rewrite (Split_tags_path name).
    rewrite slice_from_1. simpl.
    destruct (path_segments "v2" (strings.Split name "/") "tags" "list")
      as (_ & _ & -> & _).
    simpl. by rewrite Join_Split.
  - unfold isTags, is_kind. simpl. rewrite (Split_tags_path name).
    rewrite slice_from_1. simpl.
    destruct (path_segments "v2" (strings.Split name "/") "tags" "list")
      as (_ & -> & _ & ->).
    destruct (_ <? 4) eqn:E; [apply Z.ltb_lt in E; lia|]. done.
Qed.

Lemma path_grammar_witness :
  manifest_parts ("/v2/" +:+ "library/charts/nginx" +:+ "/manifests/"
                   +:+ "sha256:abc")
  = Some ("library/charts/nginx", "sha256:abc")
  ∧ isManifest {| http.Method := "HEAD";
                  http.Path := "/v2/" +:+ "library/charts/nginx"
                               +:+ "/manifests/" +:+ "sha256:abc";
                  http.Query := ∅ |} = Some true
  ∧ tags_repo ("/v2/" +:+ "library/charts/nginx" +:+ "/tags/list")
    = Some "library/charts/nginx"
  ∧ isTags {| http.Method := "HEAD";
              http.Path := "/v2/" +:+ "library/charts/nginx"
                           +:+ "/tags/list";
              http.Query := ∅ |} = Some true.
Proof.
  apply (path_grammar "library/charts/nginx" "sha256:abc" "HEAD" ∅).
  vm_compute. reflexivity.
Defined.

Lemma name_parts namespace name :
  strings.Contains namespace "/" = false →
  strings.Contains name "/" = false →
  strings.Split (namespace +:+ "/" +:+ name) "/" = [namespace; name].
Proof.
  intros Hns Hn.
  change (namespace +:+ "/" +:+ name) with (namespace +:+ String "/" name).
  by rewrite Split_app, (Split_piece _ Hns), (Split_piece _ Hn).
Qed.

(** Property X24: HEAD of [/v2/<namespace>/<name>/manifests/<ref>], none of
    the three with a slash, when [<namespace>/<name>] is not in the store:
    the Preparer is called with exactly these three strings, and when it
    succeeds and the reference is in the store afterwards, the answer is
    the manifest's headers, with the store as the Preparer left it. *)
Theorem head_of_unpopulated_chart {W} (P : Preparer W)
  namespace name ref query m w m1 ma :
  strings.Contains namespace "/" = false →
  strings.Contains name "/" = false →
  strings.Contains ref "/" = false →
  manifests m !! (namespace +:+ "/" +:+ name) = None →
  P namespace name ref m = (None, m1) →
  manifest_lookup m1 (namespace +:+ "/" +:+ name) ref = Some ma →
  call (handle P
          {| http.Method := "HEAD";
             http.Path := "/v2/" +:+ (namespace +:+ "/" +:+ name)
                          +:+ "/manifests/" +:+ ref;
             http.Query := query |})
    (m, w)
  = (Returned None, (m1, served_head ma w)).
Proof.
  intros Hns Hn Href Habs HP Hma.
  destruct (path_grammar (namespace +:+ "/" +:+ name) ref "HEAD" query Href)
    as (Hparts & _).
  apply (handle_HEAD_absent_populated P _ (namespace +:+ "/" +:+ name) ref
           m w namespace name m1 ma); try done.
  all: by rewrite (name_parts namespace name Hns Hn).
Qed.

Lemma head_of_unpopulated_chart_witness :
  call (handle populate
          {| http.Method := "HEAD";
             http.Path := "/v2/" +:+ ("ns" +:+ "/" +:+ "chart")
                          +:+ "/manifests/" +:+ "1.0.0";
             http.Query := ∅ |})
    (empty_store, http.NewRecorder)
  = (Returned None,
     (snd (populate "ns" "chart" "1.0.0" empty_store),
      served_head (chart_manifest "ns/chart" "1.0.0") http.NewRecorder)).
Proof.
  apply (head_of_unpopulated_chart populate "ns" "chart" "1.0.0" ∅
           empty_store http.NewRecorder).
  all: vm_compute; reflexivity.
Defined.

(** Property X25: GET or HEAD of [/v2/<name>/manifests/<ref>] with a name
    and a reference without a slash, when [<name>] is not in the store, is
    refused with 400 INVALID PARAMS; the store and the response are left as
    they were, so the Preparer is not called. *)
Theorem one_component_manifest_name_refused {W} (P : Preparer W)
  name ref method query (m : Manifests W) w :
  strings.Contains name "/" = false →
  strings.Contains ref "/" = false →
  serves EManifest method = true →
  manifests m !! name = None →
  call (handle P
          {| http.Method := method;
             http.Path := "/v2/" +:+ name +:+ "/manifests/" +:+ ref;
             http.Query := query |})
    (m, w)
  = (Returned (Some {| Status := 400; Code := "INVALID PARAMS";
                       Message := "No chart name specified" |}),
     (m, w)).
Proof.
  intros Hname Href Hm Habs.
  destruct (path_grammar name ref method query Href) as (Hparts & _).
  apply (handle_invalid_name P _ name ref m w); try done.
  rewrite (Split_piece name Hname). unfold len. simpl. lia.
Qed.

Lemma one_component_manifest_name_refused_witness :
  call (handle populate
          {| http.Method := "GET";
             http.Path := "/v2/" +:+ "chart" +:+ "/manifests/" +:+ "1.0.0";
             http.Query := ∅ |})
    (empty_store, http.NewRecorder)
  = (Returned (Some {| Status := 400; Code := "INVALID PARAMS";
                       Message := "No chart name specified" |}),
     (empty_store, http.NewRecorder)).
Proof.
  apply (one_component_manifest_name_refused populate "chart" "1.0.0" "GET"
           ∅ empty_store http.NewRecorder).
  all: vm_compute; reflexivity.
Defined.
